(** * PayPalResponse: the NVP response record of paypal/response.py

    A shallow embedding of [paypal.response.PayPalResponse] and of the
    library calls it is built on, followed by the properties of the response
    record: case handling of keys, scalar collapsing, the two access styles,
    rendering, construction and the [success] property.

    Strings are byte strings (Python 2 [str], or the ASCII range of a
    Python 3 [str]); a Python [dict] is an insertion-ordered association list
    with distinct keys; an exception is an explicit error result. *)

From Stdlib Require Import String Ascii List Bool Arith Lia Permutation.
Import ListNotations.
Open Scope string_scope.
Open Scope list_scope.
Open Scope nat_scope.

(* ================================================================= *)
(** ** Exceptions and results *)

(** The two exception classes the module raises, with their argument. *)
Inductive exn : Type :=
| KeyError (key : string)
| AttributeError (arg : string).

Inductive result (A : Type) : Type :=
| Ok (a : A)
| Raise (e : exn).
Arguments Ok {A} a.
Arguments Raise {A} e.

Definition bind {A B : Type} (m : result A) (k : A -> result B) : result B :=
  match m with
  | Ok a => k a
  | Raise e => Raise e
  end.

Definition fmap {A B : Type} (f : A -> B) (m : result A) : result B :=
  bind m (fun a => Ok (f a)).

Notation "x <- m ;; k" := (bind m (fun x => k))
  (at level 61, m at next level, right associativity).

(** [[f(x) for x in xs]] where [f] may raise: the first exception wins. *)
Fixpoint mapM {A B : Type} (f : A -> result B) (xs : list A) : result (list B) :=
  match xs with
  | [] => Ok []
  | x :: xs' => y <- f x ;; ys <- mapM f xs' ;; Ok (y :: ys)
  end.

(* ================================================================= *)
(** ** Python strings *)

Module Str.

(** [str.upper] on one byte: a-z go to A-Z, every other byte is kept. *)
Definition upper_char (c : ascii) : ascii :=
  let n := nat_of_ascii c in
  if (97 <=? n) && (n <=? 122) then ascii_of_nat (n - 32) else c.

(** [s.upper()] *)
Fixpoint upper (s : string) : string :=
  match s with
  | EmptyString => EmptyString
  | String c s' => String (upper_char c) (upper s')
  end.

(** [s.split(sep)] for a one-character separator; [''.split(sep) == ['']]. *)
Fixpoint split (sep : ascii) (s : string) : list string :=
  match s with
  | EmptyString => [EmptyString]
  | String c s' =>
      if Ascii.eqb c sep then EmptyString :: split sep s'
      else match split sep s' with
           | p :: ps => String c p :: ps
           | [] => [String c EmptyString]
           end
  end.

(** [s.split(sep, 1)]: cut at the first separator only. *)
Fixpoint split1 (sep : ascii) (s : string) : list string :=
  match s with
  | EmptyString => [EmptyString]
  | String c s' =>
      if Ascii.eqb c sep then [EmptyString; s']
      else match split1 sep s' with
           | p :: ps => String c p :: ps
           | [] => [String c EmptyString]
           end
  end.

(** [s.replace(a, b)] for one-character [a] and [b]. *)
Fixpoint replace (a b : ascii) (s : string) : string :=
  match s with
  | EmptyString => EmptyString
  | String c s' => String (if Ascii.eqb c a then b else c) (replace a b s')
  end.

End Str.

(* ================================================================= *)
(** ** Python dictionaries *)

Module Dict.

(** Keys are strings; entries are kept in insertion order. *)
Definition t (V : Type) : Type := list (string * V).

(** [d[k]] as an option ([None] is the KeyError case); [k in d]. *)
Fixpoint get {V : Type} (d : t V) (k : string) : option V :=
  match d with
  | [] => None
  | (k', v) :: d' => if String.eqb k' k then Some v else get d' k
  end.

(** [d[k] = v]: replaces the value of an existing key in place, appends a
    new key at the end. *)
Fixpoint set {V : Type} (d : t V) (k : string) (v : V) : t V :=
  match d with
  | [] => [(k, v)]
  | (k', v') :: d' =>
      if String.eqb k' k then (k', v) :: d' else (k', v') :: set d' k v
  end.

(** [iter(d)] *)
Definition keys {V : Type} (d : t V) : list string := map fst d.

(** [len(d)] *)
Definition len {V : Type} (d : t V) : nat := length d.

(** [dict(pairs)] *)
Definition of_pairs {V : Type} (pairs : list (string * V)) : t V :=
  fold_left (fun d kv => set d (fst kv) (snd kv)) pairs [].

End Dict.

(* ================================================================= *)
(** ** urllib.parse: the decoder [__init__] calls *)

Module Urllib.

Definition hex_digit (c : ascii) : option nat :=
  let n := nat_of_ascii c in
  if (48 <=? n) && (n <=? 57) then Some (n - 48)
  else if (65 <=? n) && (n <=? 70) then Some (n - 55)
  else if (97 <=? n) && (n <=? 102) then Some (n - 87)
  else None.

(** [unquote]: each [%XX] with two hexadecimal digits becomes the byte XX;
    a [%] that is not followed by two hexadecimal digits is kept. *)
Fixpoint unquote (s : string) : string :=
  match s with
  | EmptyString => EmptyString
  | String c s' =>
      if Ascii.eqb c "%"%char then
        match s' with
        | String h1 (String h2 s'') =>
            match hex_digit h1, hex_digit h2 with
            | Some a, Some b => String (ascii_of_nat (16 * a + b)) (unquote s'')
            | _, _ => String c (unquote s')
            end
        | _ => String c (unquote s')
        end
      else String c (unquote s')
  end.

(** One [name=value] piece of the query string, as the loop body of
    [parse_qsl] treats it with [keep_blank_values=False] and
    [strict_parsing=False]: an empty piece, a piece without [=] and a piece
    with an empty value are skipped. *)
Definition parse_pair (name_value : string) : list (string * string) :=
  match name_value with
  | EmptyString => []
  | _ =>
      match Str.split1 "="%char name_value with
      | [n; v] =>
          match v with
          | EmptyString => []
          | _ => [(unquote (Str.replace "+"%char " "%char n),
                   unquote (Str.replace "+"%char " "%char v))]
          end
      | _ => []
      end
  end.

(** [parse_qsl(qs)] with the default separator [&] (interpreters released
    before the default was narrowed in 2021 cut at [;] as well). *)
Definition parse_qsl (qs : string) : list (string * string) :=
  let query_args := match qs with EmptyString => [] | _ => Str.split "&"%char qs end in
  flat_map parse_pair query_args.

(** The loop body of [parse_qs]. *)
Definition add_pair (parsed_result : Dict.t (list string)) (nv : string * string)
  : Dict.t (list string) :=
  let (name, value) := nv in
  match Dict.get parsed_result name with
  | Some vs => Dict.set parsed_result name (vs ++ [value])
  | None => Dict.set parsed_result name [value]
  end.

(** [parse_qs(qs)] *)
Definition parse_qs (qs : string) : Dict.t (list string) :=
  fold_left add_pair (parse_qsl qs) [].

End Urllib.

(* ================================================================= *)
(** ** The response record *)

(** The configuration object, as far as the response reads it. *)
Record PayPalConfig : Type := {
  ACK_SUCCESS : string;
  ACK_SUCCESS_WITH_WARNING : string
}.

(** The instance attributes set by [__init__]. *)
Record PayPalResponse : Type := {
  raw : Dict.t (list string);
  config : PayPalConfig
}.

(** What a lookup hands back: a [str], or the [list] of [str] stored in [raw]. *)
Inductive value : Type :=
| Scalar (s : string)
| Sequence (l : list string).

(** [__getitem__]: the key is upper-cased, then looked up in [raw]; a list of
    length one is replaced by its only element. *)
Definition __getitem__ (self : PayPalResponse) (key : string) : result value :=
  let key := Str.upper key in
  match Dict.get (raw self) key with
  | None => Raise (KeyError key)
  | Some value =>
      match value with
      | [v] => Ok (Scalar v)
      | _ => Ok (Sequence value)
      end
  end.

(** [__getattr__]: [self[key]], with KeyError turned into
    [AttributeError(key)] for the key as it was passed. *)
Definition __getattr__ (self : PayPalResponse) (key : string) : result value :=
  match __getitem__ self key with
  | Ok v => Ok v
  | Raise (KeyError _) => Raise (AttributeError key)
  | Raise e => Raise e
  end.

(** [__iter__] and [__len__] *)
Definition __iter__ (self : PayPalResponse) : list string := Dict.keys (raw self).
Definition __len__ (self : PayPalResponse) : nat := Dict.len (raw self).

(** [Mapping.items], the mixin method the rendering calls: the pairs
    [(key, self[key])] for [key] in [self]. *)
Definition items (self : PayPalResponse) : result (list (string * value)) :=
  mapM (fun key => v <- __getitem__ self key ;; Ok (key, v)) (__iter__ self).

(** [dict(self.items())] *)
Definition items_dict (self : PayPalResponse) : result (Dict.t value) :=
  fmap Dict.of_pairs (items self).

(** ['list' object has no attribute 'upper'] *)
Definition no_upper : exn := AttributeError "'list' object has no attribute 'upper'".

(** [x.upper()] for the result of a lookup. *)
Definition value_upper (x : value) : result string :=
  match x with
  | Scalar s => Ok (Str.upper s)
  | Sequence _ => Raise no_upper
  end.

(** The getter of the [success] property. [self.ack] is no member of the
    instance or of its class, so the attribute lookup lands in
    [__getattr__('ack')]. *)
Definition success (self : PayPalResponse) : result bool :=
  ack <- __getattr__ self "ack" ;;
  u <- value_upper ack ;;
  Ok (String.eqb u (ACK_SUCCESS (config self))
      || String.eqb u (ACK_SUCCESS_WITH_WARNING (config self))).

(* ================================================================= *)
(** ** Rendering and construction *)

Definition newline : string := String (ascii_of_nat 10) EmptyString.

Section Rendering.

(** [pprint.pformat] on the collapsed dictionary. The layout it produces is
    the library's; the record only passes the dictionary on. *)
Variable pformat : Dict.t value -> string.

(** [__str__] *)
Definition __str__ (self : PayPalResponse) : result string :=
  fmap pformat (items_dict self).

(** [formatted] *)
Definition formatted (self : PayPalResponse) : result string :=
  fmap pformat (items_dict self).

(** [__init__]: decodes the query string into [raw], keeps [config], and
    hands the rendering of the new record to [logger.debug]. The result is
    the record together with the message logged; the message is built, by
    [self.__str__()], before the logger is called, so an exception of the
    rendering leaves [__init__]. *)
Definition __init__ (query_string : string) (config : PayPalConfig)
  : result (PayPalResponse * string) :=
  let self := {| raw := Urllib.parse_qs query_string; config := config |} in
  s <- __str__ self ;;
  Ok (self, ("PayPal NVP API Response:" ++ newline ++ s)%string).

End Rendering.

(* ================================================================= *)
(** ** Attribute access *)

(** What [self.name] can evaluate to. *)
Inductive attribute : Type :=
| Field (v : value)                      (* a response value, from [__getattr__] *)
| RawDict (d : Dict.t (list string))     (* [self.raw] *)
| ConfigObj (c : PayPalConfig)           (* [self.config] *)
| Boolean (b : bool)                     (* the value of the [success] property *)
| Member (name : string).                (* a bound method or inherited attribute *)

(** Names bound in the instance dictionary by [__init__]. *)
Definition instance_attrs : list string := ["raw"; "config"].

(** Methods defined in the class body. *)
Definition class_methods : list string :=
  ["__init__"; "__str__"; "formatted"; "__repr__"; "__getattr__";
   "__getitem__"; "__iter__"; "__len__"].

(** The other names the ordinary lookup finds on an instance: those the
    class inherits from [collections.Mapping] and [object], and those the
    class statement binds by itself (CPython 3.9, the last interpreter whose
    [collections] exports [Mapping]). *)
Definition inherited_attrs : list string :=
  ["get"; "items"; "keys"; "values"; "__contains__"; "__eq__"; "__ne__";
   "__reversed__"; "__hash__"; "__abstractmethods__"; "_abc_impl";
   "__class__"; "__class_getitem__"; "__delattr__"; "__dict__"; "__dir__";
   "__doc__"; "__format__"; "__ge__"; "__getattribute__"; "__gt__";
   "__init_subclass__"; "__le__"; "__lt__"; "__module__"; "__new__";
   "__reduce__"; "__reduce_ex__"; "__setattr__"; "__sizeof__"; "__slots__";
   "__subclasshook__"; "__weakref__"].

Definition mem (name : string) (names : list string) : bool :=
  existsb (String.eqb name) names.

(** Every name the ordinary attribute lookup finds on a record. *)
Definition is_member (name : string) : bool :=
  String.eqb name "success" || mem name instance_attrs
  || mem name class_methods || mem name inherited_attrs.

(** [self.name], the attribute lookup of the interpreter: the [success]
    property of the class, then the instance dictionary, then the other
    class attributes. By the rule of the data model, [__getattr__] is called
    when that lookup fails with AttributeError: when the name is found
    nowhere, and also when the getter of a property raises AttributeError. *)
Definition getattr (self : PayPalResponse) (name : string) : result attribute :=
  if String.eqb name "success" then
    match success self with
    | Ok b => Ok (Boolean b)
    | Raise (AttributeError _) => fmap Field (__getattr__ self name)
    | Raise e => Raise e
    end
  else if String.eqb name "raw" then Ok (RawDict (raw self))
  else if String.eqb name "config" then Ok (ConfigObj (config self))
  else if mem name class_methods || mem name inherited_attrs then Ok (Member name)
  else fmap Field (__getattr__ self name).

(* ================================================================= *)
(** ** Definitions the statements below are written with *)

(** The scalar-collapsing rule of [__getitem__], on a stored sequence. *)
Definition collapse (vs : list string) : value :=
  match vs with
  | [v] => Scalar v
  | _ => Sequence vs
  end.

(** The values a decoded pair list gives under the name [k], in the order of
    the pairs. *)
Definition values_of (k : string) (pairs : list (string * string)) : list string :=
  map snd (filter (fun nv => String.eqb (fst nv) k) pairs).

(** The distinct field names of a query string, names compared as they are
    decoded. *)
Definition field_names (q : string) : list string :=
  nodup string_dec (map fst (Urllib.parse_qsl q)).

(** The distinct field names of a query string when names that differ only
    by case count once: the reading of the size property in the
    specification. *)
Definition field_names_ignoring_case (q : string) : list string :=
  nodup string_dec (map (fun nv => Str.upper (fst nv)) (Urllib.parse_qsl q)).

(** Values already stored under a key, followed by the newly decoded ones. *)
Definition merge_values (old : option (list string)) (new : list string)
  : option (list string) :=
  match old, new with
  | Some vs, _ => Some (vs ++ new)
  | None, [] => None
  | None, _ => Some new
  end.

(** The member names, in one list. *)
Definition all_members : list string :=
  "success" :: instance_attrs ++ class_methods ++ inherited_attrs.

(** A configuration with the two tokens of the PayPal NVP interface. *)
Definition nvp_config : PayPalConfig :=
  {| ACK_SUCCESS := "SUCCESS"; ACK_SUCCESS_WITH_WARNING := "SUCCESSWITHWARNING" |}.

(** The record [__init__] assigns for a query string, before it logs. *)
Definition decoded (q : string) (cfg : PayPalConfig) : PayPalResponse :=
  {| raw := Urllib.parse_qs q; config := cfg |}.

(* ================================================================= *)
(** ** The inherited mapping interface, and [__repr__] *)

(** [Mapping.get], the mixin method the class inherits: [self[key]], and
    [default] (any object) when that raises KeyError. *)
Definition get {D : Type} (self : PayPalResponse) (key : string) (default : D)
  : result (value + D) :=
  match __getitem__ self key with
  | Ok v => Ok (inl v)
  | Raise (KeyError _) => Ok (inr default)
  | Raise e => Raise e
  end.

(** [Mapping.__contains__], inherited: [key in self]. *)
Definition __contains__ (self : PayPalResponse) (key : string) : result bool :=
  match __getitem__ self key with
  | Ok _ => Ok true
  | Raise (KeyError _) => Ok false
  | Raise e => Raise e
  end.

Section Repr.

(** [repr] of the collapsed dictionary, the [{items!r}] of the format. *)
Variable repr : Dict.t value -> string.

(** [__repr__], for an instance of the class itself: the module is
    [paypal.response] and the class name [PayPalResponse]. *)
Definition __repr__ (self : PayPalResponse) : result string :=
  let module := "paypal.response" in
  let classname := "PayPalResponse" in
  items <- items_dict self ;;
  Ok ("<" ++ module ++ "." ++ classname ++ " " ++ repr items ++ ">")%string.

End Repr.

(** Each name once, at the place of its first occurrence. *)
Fixpoint uniq (names : list string) : list string :=
  match names with
  | [] => []
  | n :: ns => n :: filter (fun m => negb (String.eqb m n)) (uniq ns)
  end.

(** [k in d] for a dictionary. *)
Definition stored {V : Type} (d : Dict.t V) (k : string) : bool :=
  match Dict.get d k with
  | Some _ => true
  | None => false
  end.

(** The first key of a dictionary, in iteration order, whose upper-case
    form is not a key. *)
Definition first_missing {V : Type} (d : Dict.t V) : option string :=
  find (fun k => negb (stored d (Str.upper k))) (Dict.keys d).

(** [c in s] for a character. *)
Fixpoint has_char (c : ascii) (s : string) : bool :=
  match s with
  | EmptyString => false
  | String c' s' => Ascii.eqb c' c || has_char c s'
  end.

(** A string that the wire format leaves as it is: none of the characters
    [&], [=], [+] and [%] occurs in it. *)
Definition plain (s : string) : bool :=
  negb (has_char "&"%char s || has_char "="%char s
        || has_char "+"%char s || has_char "%"%char s).

(** The first line of the message [__init__] logs. *)
Definition log_prefix : string :=
  ("PayPal NVP API Response:" ++ newline)%string.

(* ================================================================= *)
(** ** Strings and dictionaries: basic facts *)

Lemma upper_char_idem (c : ascii) : Str.upper_char (Str.upper_char c) = Str.upper_char c.
Proof. destruct c as [[] [] [] [] [] [] [] []]; reflexivity. Qed.

Lemma upper_idem (s : string) : Str.upper (Str.upper s) = Str.upper s.
Proof.
  induction s as [|c s IH]; simpl.
  - reflexivity.
  - now rewrite upper_char_idem, IH.
Qed.

Section DictFacts.

Context {V : Type}.
Implicit Types (d : Dict.t V) (k : string) (v : V).

Lemma get_set_same d k v : Dict.get (Dict.set d k v) k = Some v.
Proof.
  induction d as [|[k' v'] d IH]; simpl.
  - now rewrite String.eqb_refl.
  - destruct (String.eqb k' k) eqn:E; simpl; rewrite E; auto.
Qed.

Lemma get_set_other d k k' v :
  k <> k' -> Dict.get (Dict.set d k v) k' = Dict.get d k'.
Proof.
  intros Hne. induction d as [|[k0 v0] d IH]; simpl.
  - destruct (String.eqb_spec k k'); congruence.
  - destruct (String.eqb_spec k0 k) as [->|Hk]; simpl.
    + destruct (String.eqb_spec k k'); congruence.
    + now rewrite IH.
Qed.

Lemma get_None_iff d k : Dict.get d k = None <-> ~ In k (Dict.keys d).
Proof.
  induction d as [|[k' v'] d IH]; simpl.
  - tauto.
  - destruct (String.eqb_spec k' k) as [->|Hk].
    + split; [discriminate | tauto].
    + rewrite IH. tauto.
Qed.

Lemma get_Some_In d k v : Dict.get d k = Some v -> In k (Dict.keys d).
Proof.
  intros H. destruct (in_dec string_dec k (Dict.keys d)) as [|Hn]; auto.
  apply get_None_iff in Hn. congruence.
Qed.

Lemma In_get_Some d k : In k (Dict.keys d) -> exists v, Dict.get d k = Some v.
Proof.
  intros H. destruct (Dict.get d k) eqn:E; eauto.
  apply get_None_iff in E. contradiction.
Qed.

Lemma keys_set d k v :
  Dict.keys (Dict.set d k v) =
  match Dict.get d k with
  | Some _ => Dict.keys d
  | None => Dict.keys d ++ [k]
  end.
Proof.
  induction d as [|[k' v'] d IH]; simpl.
  - reflexivity.
  - destruct (String.eqb_spec k' k) as [->|Hk]; simpl.
    + reflexivity.
    + rewrite IH. now destruct (Dict.get d k).
Qed.

Lemma keys_set_In d k v k' :
  In k' (Dict.keys (Dict.set d k v)) <-> In k' (Dict.keys d) \/ k' = k.
Proof.
  rewrite keys_set. destruct (Dict.get d k) eqn:E.
  - apply get_Some_In in E. split; [tauto | intros [H | H]; subst; auto].
  - rewrite in_app_iff. simpl. intuition congruence.
Qed.

Lemma keys_set_NoDup d k v :
  NoDup (Dict.keys d) -> NoDup (Dict.keys (Dict.set d k v)).
Proof.
  intros Hd. rewrite keys_set. destruct (Dict.get d k) eqn:E; auto.
  apply get_None_iff in E.
  apply NoDup_app; [assumption | repeat constructor; simpl; tauto |].
  intros x Hx Hin. destruct Hin as [<-|Hf]; [contradiction | destruct Hf].
Qed.

End DictFacts.

(* ================================================================= *)
(** ** The decoder: what [parse_qs] stores *)

Lemma add_pair_set (d : Dict.t (list string)) (n v : string) :
  Urllib.add_pair d (n, v) =
  Dict.set d n (match Dict.get d n with Some vs => vs ++ [v] | None => [v] end).
Proof. unfold Urllib.add_pair. now destruct (Dict.get d n). Qed.

Lemma fold_add_keys_NoDup (ps : list (string * string)) :
  forall d, NoDup (Dict.keys d) -> NoDup (Dict.keys (fold_left Urllib.add_pair ps d)).
Proof.
  induction ps as [|[n v] ps IH]; intros d Hd; cbn [fold_left].
  - assumption.
  - apply IH. rewrite add_pair_set. now apply keys_set_NoDup.
Qed.

Lemma fold_add_keys_In (ps : list (string * string)) :
  forall d k,
    In k (Dict.keys (fold_left Urllib.add_pair ps d)) <->
    In k (Dict.keys d) \/ In k (map fst ps).
Proof.
  induction ps as [|[n v] ps IH]; intros d k; cbn [fold_left map fst].
  - simpl. tauto.
  - rewrite IH, add_pair_set, keys_set_In. simpl. intuition congruence.
Qed.

Lemma fold_add_get (ps : list (string * string)) :
  forall d k,
    Dict.get (fold_left Urllib.add_pair ps d) k =
    merge_values (Dict.get d k) (values_of k ps).
Proof.
  induction ps as [|[n v] ps IH]; intros d k.
  - simpl. destruct (Dict.get d k); simpl; [now rewrite app_nil_r | reflexivity].
  - cbn [fold_left]. rewrite IH, add_pair_set.
    unfold values_of. cbn [filter fst].
    destruct (String.eqb_spec n k) as [->|Hne].
    + rewrite get_set_same. cbn [map snd].
      destruct (Dict.get d k); simpl; [now rewrite <- app_assoc | reflexivity].
    + now rewrite get_set_other.
Qed.

Lemma parse_qs_get (q k : string) :
  Dict.get (Urllib.parse_qs q) k =
  match values_of k (Urllib.parse_qsl q) with
  | [] => None
  | vs => Some vs
  end.
Proof.
  unfold Urllib.parse_qs. rewrite fold_add_get. simpl.
  now destruct (values_of k (Urllib.parse_qsl q)).
Qed.

Lemma parse_qs_keys_NoDup (q : string) : NoDup (Dict.keys (Urllib.parse_qs q)).
Proof. apply fold_add_keys_NoDup. constructor. Qed.

Lemma parse_qs_keys_In (q k : string) :
  In k (Dict.keys (Urllib.parse_qs q)) <-> In k (map fst (Urllib.parse_qsl q)).
Proof. unfold Urllib.parse_qs. rewrite fold_add_keys_In. simpl. tauto. Qed.

Lemma parse_qs_len (q : string) :
  Dict.len (Urllib.parse_qs q) = length (field_names q).
Proof.
  unfold Dict.len, field_names.
  rewrite <- (length_map fst (Urllib.parse_qs q)).
  apply Permutation_length, NoDup_Permutation.
  - apply parse_qs_keys_NoDup.
  - apply NoDup_nodup.
  - intros k. fold (Dict.keys (Urllib.parse_qs q)).
    now rewrite parse_qs_keys_In, nodup_In.
Qed.

(* ================================================================= *)
(** ** Lookups *)

Lemma getitem_unfold (self : PayPalResponse) (key : string) :
  __getitem__ self key =
  match Dict.get (raw self) (Str.upper key) with
  | Some vs => Ok (collapse vs)
  | None => Raise (KeyError (Str.upper key))
  end.
Proof.
  unfold __getitem__, collapse.
  destruct (Dict.get (raw self) (Str.upper key)) as [[|v [|w vs]]|]; reflexivity.
Qed.

Lemma getattr_method_unfold (self : PayPalResponse) (key : string) :
  __getattr__ self key =
  match Dict.get (raw self) (Str.upper key) with
  | Some vs => Ok (collapse vs)
  | None => Raise (AttributeError key)
  end.
Proof.
  unfold __getattr__. rewrite getitem_unfold.
  now destruct (Dict.get (raw self) (Str.upper key)).
Qed.

Lemma collapse_Scalar (vs : list string) (v : string) :
  collapse vs = Scalar v <-> vs = [v].
Proof.
  destruct vs as [|a [|b vs]]; simpl; split; intros H;
    try discriminate; congruence.
Qed.

Lemma collapse_Sequence (vs l : list string) :
  collapse vs = Sequence l <-> l = vs /\ length vs <> 1.
Proof.
  destruct vs as [|a [|b vs]]; simpl; split.
  all: try (intros H; injection H as <-; split; [reflexivity | discriminate]).
  all: try (intros [-> _]; reflexivity).
  - discriminate.
  - intros [_ H]. now contradiction H.
Qed.

(* ================================================================= *)
(** ** The collapsed dictionary [dict(self.items())] *)

Lemma mapM_Ok_inv {A B : Type} (f : A -> result B) (xs : list A) :
  forall ys, mapM f xs = Ok ys -> Forall2 (fun x y => f x = Ok y) xs ys.
Proof.
  induction xs as [|x xs IH]; simpl; intros ys H.
  - injection H as <-. constructor.
  - destruct (f x) as [y|e] eqn:Ex; simpl in H; [|discriminate].
    destruct (mapM f xs) as [ys'|e]; simpl in H; [|discriminate].
    injection H as <-. constructor; auto.
Qed.

Lemma mapM_Raise_inv {A B : Type} (f : A -> result B) (xs : list A) (e : exn) :
  mapM f xs = Raise e -> exists x, In x xs /\ f x = Raise e.
Proof.
  induction xs as [|x xs IH]; simpl; intros H.
  - discriminate.
  - destruct (f x) as [y|e'] eqn:Ex; simpl in H.
    + destruct (mapM f xs) as [ys'|e'']; simpl in H; [discriminate|].
      destruct IH as (x' & Hin & Hx'); [congruence | eauto].
    + exists x. split; [auto | congruence].
Qed.

Lemma mapM_total {A B : Type} (f : A -> result B) (xs : list A) :
  (forall x, In x xs -> exists y, f x = Ok y) -> exists ys, mapM f xs = Ok ys.
Proof.
  induction xs as [|x xs IH]; simpl; intros H.
  - eauto.
  - destruct (H x) as [y Hy]; [auto|]. rewrite Hy. simpl.
    destruct IH as [ys Hys]; [auto|]. rewrite Hys. simpl. eauto.
Qed.

(** The pairs of [items] are the keys of [raw], in order, each with the
    result of looking the key up. *)
Lemma items_Ok_inv (self : PayPalResponse) (ps : list (string * value)) :
  items self = Ok ps ->
  map fst ps = __iter__ self /\
  forall k v, In (k, v) ps -> __getitem__ self k = Ok v.
Proof.
  unfold items. intros H. apply mapM_Ok_inv in H.
  induction H as [|k [k' v] ks ps Hk _ IH]; simpl.
  - split; [reflexivity | contradiction].
  - destruct (__getitem__ self k) as [w|e] eqn:Ew; simpl in Hk; [|discriminate].
    injection Hk as <- <-. destruct IH as [IH1 IH2]. split.
    + now rewrite IH1.
    + intros k0 v0 [Heq|Hin]; [congruence | auto].
Qed.

Lemma items_Raise_inv (self : PayPalResponse) (e : exn) :
  items self = Raise e ->
  exists k, In k (__iter__ self) /\ __getitem__ self k = Raise e.
Proof.
  unfold items. intros H. apply mapM_Raise_inv in H.
  destruct H as (k & Hin & Hk). exists k. split; [assumption|].
  destruct (__getitem__ self k); simpl in Hk; congruence.
Qed.

Lemma items_total (self : PayPalResponse) :
  (forall k, In k (__iter__ self) -> exists v, __getitem__ self k = Ok v) ->
  exists ps, items self = Ok ps.
Proof.
  intros H. apply mapM_total. intros k Hk.
  destruct (H k Hk) as [v Hv]. rewrite Hv. simpl. eauto.
Qed.

Section OfPairs.

Context {V : Type}.

Lemma get_app_last (d : Dict.t V) (k0 : string) (v0 : V) (k : string) :
  Dict.get (d ++ [(k0, v0)]) k =
  match Dict.get d k with
  | Some v => Some v
  | None => if String.eqb k0 k then Some v0 else None
  end.
Proof.
  induction d as [|[k' v'] d IH]; simpl.
  - reflexivity.
  - now destruct (String.eqb k' k).
Qed.

Lemma fold_set_get (ps : list (string * V)) :
  forall (d : Dict.t V) (k : string),
    Dict.get (fold_left (fun d kv => Dict.set d (fst kv) (snd kv)) ps d) k =
    match Dict.get (rev ps) k with
    | Some v => Some v
    | None => Dict.get d k
    end.
Proof.
  induction ps as [|[k0 v0] ps IH]; intros d k; simpl.
  - reflexivity.
  - rewrite IH, get_app_last.
    destruct (Dict.get (rev ps) k); [reflexivity|].
    destruct (String.eqb_spec k0 k) as [->|Hne].
    + apply get_set_same.
    + now apply get_set_other.
Qed.

Lemma get_In (d : Dict.t V) (k : string) (v : V) :
  Dict.get d k = Some v -> In (k, v) d.
Proof.
  induction d as [|[k' v'] d IH]; simpl; [discriminate|].
  destruct (String.eqb_spec k' k) as [->|Hne]; intros H.
  - left. congruence.
  - right. auto.
Qed.

Lemma of_pairs_get (ps : list (string * V)) (k : string) :
  Dict.get (Dict.of_pairs ps) k = Dict.get (rev ps) k.
Proof.
  unfold Dict.of_pairs. rewrite fold_set_get. simpl.
  now destruct (Dict.get (rev ps) k).
Qed.

End OfPairs.

(** Each key of [raw] appears in the collapsed dictionary with the value the
    lookup of that key returns; nothing else appears. *)
Lemma items_dict_get (self : PayPalResponse) (d : Dict.t value) :
  items_dict self = Ok d ->
  forall k,
    (In k (__iter__ self) ->
       exists v, __getitem__ self k = Ok v /\ Dict.get d k = Some v) /\
    (~ In k (__iter__ self) -> Dict.get d k = None).
Proof.
  unfold items_dict, fmap. intros H k.
  destruct (items self) as [ps|e] eqn:Eps; simpl in H; [|discriminate].
  injection H as <-. apply items_Ok_inv in Eps. destruct Eps as [Hkeys Hvals].
  rewrite of_pairs_get. split.
  - intros Hin.
    assert (Hrev : In k (Dict.keys (rev ps))).
    { unfold Dict.keys. rewrite map_rev, <- in_rev, Hkeys. exact Hin. }
    apply In_get_Some in Hrev. destruct Hrev as [v Hv].
    exists v. split; [|exact Hv].
    apply Hvals. apply in_rev. now apply get_In.
  - intros Hnin. apply get_None_iff.
    unfold Dict.keys. now rewrite map_rev, <- in_rev, Hkeys.
Qed.

(** The rendering raises exactly when some key of [raw] has no upper-case
    counterpart among the keys. *)
Lemma items_dict_succeeds_iff (self : PayPalResponse) :
  (exists d, items_dict self = Ok d) <->
  (forall k, In k (Dict.keys (raw self)) -> In (Str.upper k) (Dict.keys (raw self))).
Proof.
  unfold items_dict, fmap. split.
  - intros [d H] k Hk.
    destruct (items self) as [ps|e] eqn:Eps; simpl in H; [|discriminate].
    apply items_Ok_inv in Eps. destruct Eps as [Hkeys Hvals].
    assert (Hin : In k (map fst ps)) by (rewrite Hkeys; exact Hk).
    apply in_map_iff in Hin. destruct Hin as ([k' v] & Hfst & Hin).
    simpl in Hfst. subst k'. apply Hvals in Hin.
    rewrite getitem_unfold in Hin.
    destruct (Dict.get (raw self) (Str.upper k)) eqn:E; [|discriminate].
    now apply get_Some_In in E.
  - intros H. destruct (items_total self) as [ps Hps].
    + intros k Hk. rewrite getitem_unfold.
      destruct (In_get_Some _ _ (H k Hk)) as [vs ->]. eauto.
    + rewrite Hps. simpl. eauto.
Qed.

(* ================================================================= *)
(** ** Construction *)

Lemma init_Ok_inv (pformat : Dict.t value -> string) (q : string)
    (cfg : PayPalConfig) (self : PayPalResponse) (log : string) :
  __init__ pformat q cfg = Ok (self, log) ->
  self = decoded q cfg /\
  exists s, __str__ pformat self = Ok s /\
            log = ("PayPal NVP API Response:" ++ newline ++ s)%string.
Proof.
  unfold __init__. fold (decoded q cfg). intros H.
  destruct (__str__ pformat (decoded q cfg)) as [s|e] eqn:Es; simpl in H; [|discriminate].
  injection H as <- <-. eauto.
Qed.

(** [__init__] returns exactly when every decoded name has its upper-case
    form among the decoded names; otherwise the rendering made for the log
    raises KeyError. *)
Lemma init_succeeds_iff (pformat : Dict.t value -> string) (q : string)
    (cfg : PayPalConfig) :
  (exists self log, __init__ pformat q cfg = Ok (self, log)) <->
  (forall k, In k (map fst (Urllib.parse_qsl q)) ->
             In (Str.upper k) (map fst (Urllib.parse_qsl q))).
Proof.
  assert (Hiff := items_dict_succeeds_iff (decoded q cfg)).
  cbn [raw decoded] in Hiff.
  split.
  - intros (self & log & H) k Hk.
    apply init_Ok_inv in H. destruct H as (-> & s & Hs & _).
    unfold __str__, fmap in Hs.
    destruct (items_dict (decoded q cfg)) as [d|e] eqn:Ed; simpl in Hs; [|discriminate].
    apply parse_qs_keys_In. apply (proj1 Hiff); [eauto|].
    now apply parse_qs_keys_In.
  - intros H.
    destruct (proj2 Hiff) as [d Hd].
    + intros k Hk. apply parse_qs_keys_In, H. now apply parse_qs_keys_In.
    + unfold __init__, __str__. fold (decoded q cfg). rewrite Hd. simpl. eauto.
Qed.

(** When [__init__] raises, the exception is the KeyError of a decoded name
    whose upper-case form is no decoded name. *)
Lemma init_Raise_inv (pformat : Dict.t value -> string) (q : string)
    (cfg : PayPalConfig) (e : exn) :
  __init__ pformat q cfg = Raise e ->
  exists k, In k (map fst (Urllib.parse_qsl q))
            /\ ~ In (Str.upper k) (map fst (Urllib.parse_qsl q))
            /\ e = KeyError (Str.upper k).
Proof.
  unfold __init__, __str__, items_dict, fmap. fold (decoded q cfg). intros H.
  destruct (items (decoded q cfg)) as [ps|e'] eqn:Eps; simpl in H; [discriminate|].
  injection H as ->. apply items_Raise_inv in Eps. destruct Eps as (k & Hk & Hget).
  exists k. cbn [__iter__ raw decoded] in Hk. rewrite getitem_unfold in Hget.
  cbn [raw decoded] in Hget. split; [now apply parse_qs_keys_In|].
  destruct (Dict.get (Urllib.parse_qs q) (Str.upper k)) eqn:E; [discriminate|].
  split; [|congruence].
  rewrite <- parse_qs_keys_In. now apply get_None_iff.
Qed.

(* ================================================================= *)
(** ** The [success] property *)

Lemma upper_ack : Str.upper "ack" = "ACK".
Proof. reflexivity. Qed.

Lemma success_unfold (self : PayPalResponse) :
  success self =
  match Dict.get (raw self) "ACK" with
  | None => Raise (AttributeError "ack")
  | Some [v] =>
      Ok (String.eqb (Str.upper v) (ACK_SUCCESS (config self))
          || String.eqb (Str.upper v) (ACK_SUCCESS_WITH_WARNING (config self)))
  | Some _ => Raise no_upper
  end.
Proof.
  unfold success. rewrite getattr_method_unfold, upper_ack.
  destruct (Dict.get (raw self) "ACK") as [[|v [|w vs]]|]; reflexivity.
Qed.

(** C1, as checked on the code: a response with the lower-case key [ack] is
    not one on which [success] returns false. The decoder keeps the key as it
    is spelt, the lookup asks for [ACK], so the getter raises
    [AttributeError('ack')], and the constructor itself raises
    [KeyError('ACK')] while rendering the record for the log. A key [ACK]
    with two values makes the getter raise as well. *)
Lemma C1_lower_case_ack_counterexample :
  Urllib.parse_qs "ack=Failure&L_ERRORCODE0=10001"
    = [("ack", ["Failure"]); ("L_ERRORCODE0", ["10001"])]
  /\ success (decoded "ack=Failure&L_ERRORCODE0=10001" nvp_config)
     = Raise (AttributeError "ack")
  /\ success (decoded "ack=Failure&L_ERRORCODE0=10001" nvp_config) <> Ok false
  /\ (forall pformat,
        __init__ pformat "ack=Failure&L_ERRORCODE0=10001" nvp_config
        = Raise (KeyError "ACK"))
  /\ success (decoded "ACK=Success&ACK=Failure" nvp_config) = Raise no_upper.
Proof.
  repeat split; try reflexivity. discriminate.
Qed.

(** C1 (amended): when [raw] holds the upper-case key [ACK] with exactly one
    value [v], [success] returns true if and only if the upper-cased [v] is
    [ACK_SUCCESS] or [ACK_SUCCESS_WITH_WARNING], and false for every other
    [v]; attribute access to [success] then yields that boolean. When [raw]
    holds no key [ACK], the getter raises the attribute-shaped not-found
    error for [ack] and returns no boolean. *)
Theorem C1_success_reads_upper_case_ack (self : PayPalResponse) :
  (forall v, Dict.get (raw self) "ACK" = Some [v] ->
     success self
       = Ok (String.eqb (Str.upper v) (ACK_SUCCESS (config self))
             || String.eqb (Str.upper v) (ACK_SUCCESS_WITH_WARNING (config self)))
     /\ (success self = Ok true <->
         Str.upper v = ACK_SUCCESS (config self)
         \/ Str.upper v = ACK_SUCCESS_WITH_WARNING (config self))
     /\ (success self = Ok false <->
         Str.upper v <> ACK_SUCCESS (config self)
         /\ Str.upper v <> ACK_SUCCESS_WITH_WARNING (config self))
     /\ getattr self "success" = fmap Boolean (success self))
  /\ (Dict.get (raw self) "ACK" = None ->
      success self = Raise (AttributeError "ack")
      /\ forall b, success self <> Ok b).
Proof.
  split.
  - intros v Hv. unfold getattr. cbn [String.eqb Ascii.eqb Bool.eqb].
    rewrite success_unfold, Hv.
    destruct (String.eqb_spec (Str.upper v) (ACK_SUCCESS (config self))) as [E1|E1];
    destruct (String.eqb_spec (Str.upper v) (ACK_SUCCESS_WITH_WARNING (config self)))
      as [E2|E2]; simpl; repeat split; intros; auto; try discriminate; try tauto.
    all: intuition congruence.
  - intros Hn. rewrite success_unfold, Hn. split; [reflexivity | discriminate].
Qed.

(** The two cases at concrete responses: one successful call, one response without [ACK]. *)
Lemma C1_success_reads_upper_case_ack_witness :
  Dict.get (raw (decoded "ACK=Success&TOKEN=EC-123&AMT=10.00&AMT=20.00" nvp_config)) "ACK"
    = Some ["Success"]
  /\ success (decoded "ACK=Success&TOKEN=EC-123&AMT=10.00&AMT=20.00" nvp_config) = Ok true
  /\ Dict.get (raw (decoded "TOKEN=EC-123" nvp_config)) "ACK" = None
  /\ success (decoded "TOKEN=EC-123" nvp_config) = Raise (AttributeError "ack").
Proof.
  split; [reflexivity|]. split.
  - exact (proj1 (proj1 (C1_success_reads_upper_case_ack
                           (decoded "ACK=Success&TOKEN=EC-123&AMT=10.00&AMT=20.00" nvp_config))
                        "Success" eq_refl)).
  - split; [reflexivity|].
    exact (proj1 (proj2 (C1_success_reads_upper_case_ack (decoded "TOKEN=EC-123" nvp_config))
                        eq_refl)).
Defined.

(* ================================================================= *)
(** ** Keys: what is stored and what is asked for *)

(** C2, as checked on the code: the query string [a=1&A=2] constructs a
    record whose [raw] has the lower-case key [a]; the value stored under it
    is returned for no spelling of the name, since both [a] and [A] ask for
    the entry [A]. *)
Lemma C2_stored_keys_keep_their_case_counterexample :
  (forall pformat,
     fmap fst (__init__ pformat "a=1&A=2" nvp_config) = Ok (decoded "a=1&A=2" nvp_config))
  /\ Dict.keys (raw (decoded "a=1&A=2" nvp_config)) = ["a"; "A"]
  /\ Str.upper "a" <> "a"
  /\ Dict.get (raw (decoded "a=1&A=2" nvp_config)) "a" = Some ["1"]
  /\ __getitem__ (decoded "a=1&A=2" nvp_config) "a" = Ok (Scalar "2")
  /\ __getitem__ (decoded "a=1&A=2" nvp_config) "A" = Ok (Scalar "2").
Proof.
  repeat split; try reflexivity. discriminate.
Qed.

(** C2 (amended): the keys of the constructed record's [raw] are the decoded
    field names, spelt as in the query string; every lookup ([__getitem__],
    [__getattr__]) upper-cases the requested key before it is matched against
    [raw]. So an entry stored under an upper-case key is returned for every
    casing of the requested name, and an entry stored under a key with a
    lower-case letter is matched by no request. *)
Theorem C2_lookup_upper_cases_the_request_only
    (pformat : Dict.t value -> string) (q : string) (cfg : PayPalConfig)
    (self : PayPalResponse) (log : string) :
  __init__ pformat q cfg = Ok (self, log) ->
  (forall k, In k (Dict.keys (raw self)) <-> In k (map fst (Urllib.parse_qsl q)))
  /\ (forall key,
        __getitem__ self key =
        match Dict.get (raw self) (Str.upper key) with
        | Some vs => Ok (collapse vs)
        | None => Raise (KeyError (Str.upper key))
        end)
  /\ (forall key,
        __getattr__ self key =
        match Dict.get (raw self) (Str.upper key) with
        | Some vs => Ok (collapse vs)
        | None => Raise (AttributeError key)
        end)
  /\ (forall k0 vs key,
        Dict.get (raw self) k0 = Some vs -> Str.upper key = k0 ->
        __getitem__ self key = Ok (collapse vs))
  /\ (forall k0, In k0 (Dict.keys (raw self)) -> Str.upper k0 <> k0 ->
        forall key, Str.upper key <> k0).
Proof.
  intros H. apply init_Ok_inv in H. destruct H as [-> _]. repeat split.
  - apply parse_qs_keys_In.
  - apply parse_qs_keys_In.
  - intros key. apply getitem_unfold.
  - intros key. apply getattr_method_unfold.
  - intros k0 vs key Hget <-. rewrite getitem_unfold. now rewrite Hget.
  - intros k0 _ Hne key <-. apply Hne, upper_idem.
Qed.

(** A constructed record, read under a mixed-case key. *)
Lemma C2_lookup_upper_cases_the_request_only_witness :
  __init__ (fun _ => "{}") "ACK=Success&AMT=10.00&AMT=20.00" nvp_config
    = Ok (decoded "ACK=Success&AMT=10.00&AMT=20.00" nvp_config,
          ("PayPal NVP API Response:" ++ newline ++ "{}")%string)
  /\ __getitem__ (decoded "ACK=Success&AMT=10.00&AMT=20.00" nvp_config) "Amt"
     = Ok (Sequence ["10.00"; "20.00"]).
Proof.
  split; [reflexivity|].
  exact (proj1 (proj2 (proj2 (proj2
    (C2_lookup_upper_cases_the_request_only (fun _ => "{}")
       "ACK=Success&AMT=10.00&AMT=20.00" nvp_config _ _ eq_refl))))
    "AMT" ["10.00"; "20.00"] "Amt" eq_refl eq_refl).
Defined.

(** C3, as checked on the code: [a=1&A=2] has one field name when case is
    ignored, and the constructed record has size 2. *)
Lemma C3_case_variants_are_two_entries_counterexample :
  (forall pformat,
     fmap fst (__init__ pformat "a=1&A=2" nvp_config) = Ok (decoded "a=1&A=2" nvp_config))
  /\ __len__ (decoded "a=1&A=2" nvp_config) = 2
  /\ length (field_names_ignoring_case "a=1&A=2") = 1.
Proof.
  repeat split; reflexivity.
Qed.

(** C3 (amended): for every query string a record is constructed from,
    [__len__] is the number of distinct decoded field names, two names being
    the same only when they are the same string (names that differ by case
    are separate entries). A name that occurs several times is one entry,
    holding the values of its occurrences in decoding order; [__len__] counts
    names, not values. *)
Theorem C3_size_counts_distinct_decoded_names
    (pformat : Dict.t value -> string) (q : string) (cfg : PayPalConfig)
    (self : PayPalResponse) (log : string) :
  __init__ pformat q cfg = Ok (self, log) ->
  __len__ self = length (field_names q)
  /\ NoDup (__iter__ self)
  /\ (forall k, Dict.get (raw self) k =
                match values_of k (Urllib.parse_qsl q) with
                | [] => None
                | vs => Some vs
                end).
Proof.
  intros H. apply init_Ok_inv in H. destruct H as [-> _]. repeat split.
  - apply parse_qs_len.
  - apply parse_qs_keys_NoDup.
  - intros k. apply parse_qs_get.
Qed.

(** Four pairs, three names. *)
Lemma C3_size_counts_distinct_decoded_names_witness :
  __init__ (fun _ => "{}") "ACK=Success&TOKEN=EC-123&AMT=10.00&AMT=20.00" nvp_config
    = Ok (decoded "ACK=Success&TOKEN=EC-123&AMT=10.00&AMT=20.00" nvp_config,
          ("PayPal NVP API Response:" ++ newline ++ "{}")%string)
  /\ __len__ (decoded "ACK=Success&TOKEN=EC-123&AMT=10.00&AMT=20.00" nvp_config) = 3.
Proof.
  split; [reflexivity|].
  exact (proj1 (C3_size_counts_distinct_decoded_names (fun _ => "{}")
                  "ACK=Success&TOKEN=EC-123&AMT=10.00&AMT=20.00" nvp_config _ _ eq_refl)).
Defined.

(* ================================================================= *)
(** ** Scalar collapsing *)

(** C4, as checked on the code: in the record constructed from
    [a=1&A=2&A=3] the field [a] has exactly one value, and the lookup of [a]
    returns the two values stored under [A]. *)
Lemma C4_lower_case_field_counterexample :
  (forall pformat,
     fmap fst (__init__ pformat "a=1&A=2&A=3" nvp_config)
     = Ok (decoded "a=1&A=2&A=3" nvp_config))
  /\ Dict.get (raw (decoded "a=1&A=2&A=3" nvp_config)) "a" = Some ["1"]
  /\ __getitem__ (decoded "a=1&A=2&A=3" nvp_config) "a" = Ok (Sequence ["2"; "3"]).
Proof.
  repeat split; reflexivity.
Qed.

(** C4 (amended): for every requested key whose upper-case form is a key of
    [raw]: if the stored sequence has exactly one value [v], the lookup
    returns the bare string [v]; otherwise it returns the stored sequence
    whole, which in a decoded response lists the values encoded under that
    upper-case name in encoding order. The collapsing is done by the lookup:
    when it returns the string [v], [raw] still holds the one-element
    sequence. *)
Theorem C4_collapse_at_read_time
    (self : PayPalResponse) (key : string) (vs : list string) :
  Dict.get (raw self) (Str.upper key) = Some vs ->
  (forall v, vs = [v] -> __getitem__ self key = Ok (Scalar v))
  /\ (length vs <> 1 -> __getitem__ self key = Ok (Sequence vs))
  /\ (forall q, raw self = Urllib.parse_qs q ->
        vs = values_of (Str.upper key) (Urllib.parse_qsl q))
  /\ (forall v, __getitem__ self key = Ok (Scalar v) ->
        Dict.get (raw self) (Str.upper key) = Some [v]).
Proof.
  intros Hget. rewrite getitem_unfold, Hget. repeat split.
  - intros v ->. reflexivity.
  - intros Hlen. f_equal. apply collapse_Sequence. auto.
  - intros q Hq. rewrite Hq, parse_qs_get in Hget.
    destruct (values_of (Str.upper key) (Urllib.parse_qsl q)); congruence.
  - intros v Hv. injection Hv as Hv. apply collapse_Scalar in Hv. congruence.
Qed.

(** One field with two values and one with a single value. *)
Lemma C4_collapse_at_read_time_witness :
  Dict.get (raw (decoded "ACK=Success&AMT=10.00&AMT=20.00" nvp_config)) (Str.upper "amt")
    = Some ["10.00"; "20.00"]
  /\ __getitem__ (decoded "ACK=Success&AMT=10.00&AMT=20.00" nvp_config) "amt"
     = Ok (Sequence ["10.00"; "20.00"])
  /\ __getitem__ (decoded "ACK=Success&AMT=10.00&AMT=20.00" nvp_config) "ack"
     = Ok (Scalar "Success").
Proof.
  split; [reflexivity|]. split.
  - apply (C4_collapse_at_read_time
             (decoded "ACK=Success&AMT=10.00&AMT=20.00" nvp_config) "amt"
             ["10.00"; "20.00"] eq_refl).
    simpl. lia.
  - exact (proj1 (C4_collapse_at_read_time
                    (decoded "ACK=Success&AMT=10.00&AMT=20.00" nvp_config) "ack"
                    ["Success"] eq_refl) "Success" eq_refl).
Defined.

(* ================================================================= *)
(** ** Case of the requested key; absent fields *)

(** Attribute access under a name that is no member of the record is the
    call of [__getattr__]. *)
Lemma getattr_non_member (self : PayPalResponse) (name : string) :
  is_member name = false -> getattr self name = fmap Field (__getattr__ self name).
Proof.
  unfold is_member. rewrite !orb_false_iff. intros [[[Hs Hi] Hc] Hh].
  unfold mem, instance_attrs in Hi. cbn [existsb] in Hi.
  rewrite !orb_false_iff in Hi. destruct Hi as (Hraw & Hcfg & _).
  unfold getattr. now rewrite Hs, Hraw, Hcfg, Hc, Hh.
Qed.

(** C5: [__getitem__] and [__getattr__] do not depend on the case of the
    requested key. Two keys with the same upper-case form give the same
    result from [__getitem__] (the same value, or the same KeyError), and from
    [__getattr__] either the same value, or both fail because the one
    upper-case field is missing, each error naming the key it was given. *)
Theorem C5_lookup_ignores_case_of_request
    (self : PayPalResponse) (k1 k2 : string) :
  Str.upper k1 = Str.upper k2 ->
  __getitem__ self k1 = __getitem__ self k2
  /\ ((exists v, __getattr__ self k1 = Ok v /\ __getattr__ self k2 = Ok v)
      \/ (Dict.get (raw self) (Str.upper k1) = None
          /\ __getattr__ self k1 = Raise (AttributeError k1)
          /\ __getattr__ self k2 = Raise (AttributeError k2))).
Proof.
  intros Hup. split.
  - rewrite !getitem_unfold, Hup. reflexivity.
  - rewrite !getattr_method_unfold, <- Hup.
    destruct (Dict.get (raw self) (Str.upper k1)) as [vs|]; eauto.
Qed.

(** Two spellings of one key. *)
Lemma C5_lookup_ignores_case_of_request_witness :
  Str.upper "ack" = Str.upper "Ack"
  /\ __getitem__ (decoded "ACK=Success" nvp_config) "ack"
     = __getitem__ (decoded "ACK=Success" nvp_config) "Ack".
Proof.
  split; [reflexivity|].
  exact (proj1 (C5_lookup_ignores_case_of_request
                  (decoded "ACK=Success" nvp_config) "ack" "Ack" eq_refl)).
Defined.

(** C6: when the upper-case form of the key is not in [raw], [__getitem__]
    raises KeyError and [__getattr__] raises AttributeError carrying the key
    exactly as it was passed, not its upper-case form. [__getattr__] calls
    [__getitem__] and turns every KeyError of it into that AttributeError;
    it returns no value in its place. Attribute access under a name that is
    no member of the record is that call. *)
Theorem C6_absent_field_errors (self : PayPalResponse) (key : string) :
  Dict.get (raw self) (Str.upper key) = None ->
  __getitem__ self key = Raise (KeyError (Str.upper key))
  /\ __getattr__ self key = Raise (AttributeError key)
  /\ (forall k, __getitem__ self key = Raise (KeyError k) ->
        __getattr__ self key = Raise (AttributeError key))
  /\ (is_member key = false -> getattr self key = Raise (AttributeError key)).
Proof.
  intros Hnone. rewrite getitem_unfold, getattr_method_unfold, Hnone.
  repeat split; auto.
  intros Hm. rewrite (getattr_non_member self key Hm).
  now rewrite getattr_method_unfold, Hnone.
Qed.

(** A field that the response does not have. *)
Lemma C6_absent_field_errors_witness :
  Dict.get (raw (decoded "ACK=Success" nvp_config)) (Str.upper "Token") = None
  /\ __getitem__ (decoded "ACK=Success" nvp_config) "Token" = Raise (KeyError "TOKEN")
  /\ __getattr__ (decoded "ACK=Success" nvp_config) "Token" = Raise (AttributeError "Token").
Proof.
  split; [reflexivity|].
  pose proof (C6_absent_field_errors (decoded "ACK=Success" nvp_config) "Token" eq_refl)
    as (H1 & H2 & _).
  exact (conj H1 H2).
Defined.

(* ================================================================= *)
(** ** Construction on arbitrary input *)

(** The empty query string: the record is constructed, has no entry, every
    lookup raises the not-found error of its access style, and the getter of
    [success] raises the one for [ack]. *)
Lemma empty_query_string
    (pformat : Dict.t value -> string) (cfg : PayPalConfig) (key : string) :
  __init__ pformat "" cfg
    = Ok (decoded "" cfg, ("PayPal NVP API Response:" ++ newline ++ pformat [])%string)
  /\ __len__ (decoded "" cfg) = 0
  /\ __getitem__ (decoded "" cfg) key = Raise (KeyError (Str.upper key))
  /\ __getattr__ (decoded "" cfg) key = Raise (AttributeError key)
  /\ success (decoded "" cfg) = Raise (AttributeError "ack").
Proof.
  repeat split; reflexivity.
Qed.

(** C7, evaluated on the code: constructing a record from the query string
    [ack=Failure] does not return. The decoder stores the key [ack]; the
    rendering made for the debug log looks every stored key up through
    [__getitem__], which asks [raw] for [ACK], and the KeyError leaves
    [__init__]. *)
Theorem C7_constructor_raises_on_lower_case_key
    (pformat : Dict.t value -> string) (cfg : PayPalConfig) :
  Urllib.parse_qs "ack=Failure" = [("ack", ["Failure"])]
  /\ items (decoded "ack=Failure" cfg) = Raise (KeyError "ACK")
  /\ __init__ pformat "ack=Failure" cfg = Raise (KeyError "ACK").
Proof.
  repeat split; reflexivity.
Qed.

(* ================================================================= *)
(** ** Rendering *)

(** A record that was constructed renders without an exception, and the
    rendering is what was logged. *)
Lemma constructed_record_renders
    (pformat : Dict.t value -> string) (q : string) (cfg : PayPalConfig)
    (self : PayPalResponse) (log : string) :
  __init__ pformat q cfg = Ok (self, log) ->
  exists s, __str__ pformat self = Ok s
            /\ formatted pformat self = Ok s
            /\ log = ("PayPal NVP API Response:" ++ newline ++ s)%string.
Proof.
  intros H. apply init_Ok_inv in H. destruct H as (_ & s & Hs & Hlog).
  exists s. auto.
Qed.

(** C8: [__str__] and [formatted] give the same result on every record, and
    each is a function of the record alone, so a second call repeats the
    first. What they render is the collapsed dictionary: it has exactly the
    keys of [raw], and under each key the value that [__getitem__] returns
    for that key. *)
Theorem C8_rendering_aliases
    (pformat : Dict.t value -> string) (self : PayPalResponse) :
  __str__ pformat self = formatted pformat self
  /\ (forall s, __str__ pformat self = Ok s ->
        exists d, s = pformat d
          /\ items_dict self = Ok d
          /\ forall k,
               (In k (__iter__ self) ->
                  exists v, __getitem__ self k = Ok v /\ Dict.get d k = Some v)
               /\ (~ In k (__iter__ self) -> Dict.get d k = None)).
Proof.
  split; [reflexivity|].
  intros s Hs. unfold __str__, fmap in Hs.
  destruct (items_dict self) as [d|e] eqn:Ed; simpl in Hs; [|discriminate].
  injection Hs as <-. exists d. repeat split; try reflexivity.
  all: now apply (items_dict_get self d Ed k).
Qed.

(** A rendering and the dictionary behind it. *)
Lemma C8_rendering_aliases_witness :
  __str__ (fun d => match d with [] => "{}" | _ => "{...}" end)
          (decoded "ACK=Success&AMT=1&AMT=2" nvp_config) = Ok "{...}"
  /\ exists d, items_dict (decoded "ACK=Success&AMT=1&AMT=2" nvp_config) = Ok d
               /\ Dict.get d "AMT" = Some (Sequence ["1"; "2"]).
Proof.
  split; [reflexivity|].
  destruct (proj2 (C8_rendering_aliases
                     (fun d => match d with [] => "{}" | _ => "{...}" end)
                     (decoded "ACK=Success&AMT=1&AMT=2" nvp_config))
                  "{...}" eq_refl) as (d & _ & Hd & Hk).
  exists d. split; [exact Hd|].
  destruct (proj1 (Hk "AMT")) as (v & Hv & Hget).
  - simpl. auto.
  - rewrite Hget. vm_compute in Hv. congruence.
Defined.

(* ================================================================= *)
(** ** [success] on a sequence *)

(** What the attribute [success] evaluates to, by the stored [ACK]. *)
Lemma getattr_success_unfold (self : PayPalResponse) :
  getattr self "success" =
  match Dict.get (raw self) "ACK" with
  | Some [v] =>
      Ok (Boolean (String.eqb (Str.upper v) (ACK_SUCCESS (config self))
                   || String.eqb (Str.upper v) (ACK_SUCCESS_WITH_WARNING (config self))))
  | _ => fmap Field (__getattr__ self "success")
  end.
Proof.
  unfold getattr. cbn [String.eqb Ascii.eqb Bool.eqb]. rewrite success_unfold.
  destruct (Dict.get (raw self) "ACK") as [[|v [|w l]]|]; reflexivity.
Qed.

(** C9, as checked on the code: the record constructed from [ACK=a&ACK=b]
    holds [ACK] with two values. The getter does raise on the list, but its
    exception is an AttributeError like the not-found error, and the
    attribute [success] of the record raises [AttributeError('success')],
    which is the not-found error attribute access gives for a missing field,
    as for [token]. With a field [SUCCESS] in the response the attribute
    does not fail at all: it returns that field. *)
Lemma C9_many_valued_ack_counterexample :
  (forall pformat,
     fmap fst (__init__ pformat "ACK=a&ACK=b" nvp_config)
     = Ok (decoded "ACK=a&ACK=b" nvp_config))
  /\ Dict.get (raw (decoded "ACK=a&ACK=b" nvp_config)) "ACK" = Some ["a"; "b"]
  /\ success (decoded "ACK=a&ACK=b" nvp_config)
     = Raise (AttributeError "'list' object has no attribute 'upper'")
  /\ getattr (decoded "ACK=a&ACK=b" nvp_config) "success"
     = Raise (AttributeError "success")
  /\ getattr (decoded "ACK=a&ACK=b" nvp_config) "token"
     = Raise (AttributeError "token")
  /\ (forall pformat,
        fmap fst (__init__ pformat "ACK=a&ACK=b&SUCCESS=yes" nvp_config)
        = Ok (decoded "ACK=a&ACK=b&SUCCESS=yes" nvp_config))
  /\ getattr (decoded "ACK=a&ACK=b&SUCCESS=yes" nvp_config) "success"
     = Ok (Field (Scalar "yes")).
Proof.
  repeat split; reflexivity.
Qed.

(** C9 (amended): when [raw] holds [ACK] with a number of values other than
    one (in particular with more than one), [success] yields no boolean. The
    lookup of [ack] succeeds and returns the sequence; the getter then raises
    the AttributeError of calling [upper] on a list, an exception of the same
    class as the attribute-shaped not-found error. Read as the attribute
    [success] of the record, that exception is answered by
    [__getattr__('success')]: the access returns the response field [SUCCESS]
    when one is stored, and raises the not-found error
    [AttributeError('success')] otherwise. The getter, and the attribute,
    yield a boolean exactly when [ACK] is stored with exactly one value. *)
Theorem C9_success_on_many_valued_ack (self : PayPalResponse) (vs : list string) :
  Dict.get (raw self) "ACK" = Some vs -> length vs <> 1 ->
  __getattr__ self "ack" = Ok (Sequence vs)
  /\ success self = Raise (AttributeError "'list' object has no attribute 'upper'")
  /\ (forall b, success self <> Ok b)
  /\ getattr self "success"
     = match Dict.get (raw self) "SUCCESS" with
       | Some ws => Ok (Field (collapse ws))
       | None => Raise (AttributeError "success")
       end
  /\ (forall b, getattr self "success" <> Ok (Boolean b))
  /\ (forall r : PayPalResponse,
        (exists b, success r = Ok b) <-> (exists v, Dict.get (raw r) "ACK" = Some [v]))
  /\ (forall r : PayPalResponse,
        (exists b, getattr r "success" = Ok (Boolean b))
        <-> (exists v, Dict.get (raw r) "ACK" = Some [v])).
Proof.
  intros Hget Hlen.
  assert (Hattr : getattr self "success"
                  = match Dict.get (raw self) "SUCCESS" with
                    | Some ws => Ok (Field (collapse ws))
                    | None => Raise (AttributeError "success")
                    end).
  { rewrite getattr_success_unfold, Hget, getattr_method_unfold.
    change (Str.upper "success") with "SUCCESS".
    destruct vs as [|a [|c l]]; [| now contradiction Hlen |];
      now destruct (Dict.get (raw self) "SUCCESS"). }
  assert (Hsucc : success self
                  = Raise (AttributeError "'list' object has no attribute 'upper'")).
  { rewrite success_unfold, Hget.
    destruct vs as [|a [|c l]]; [reflexivity | now contradiction Hlen | reflexivity]. }
  split; [|split; [exact Hsucc|split; [|split; [exact Hattr|split; [|split]]]]].
  - rewrite getattr_method_unfold, upper_ack, Hget. f_equal.
    apply collapse_Sequence. auto.
  - intros b. rewrite Hsucc. discriminate.
  - intros b. rewrite Hattr. destruct (Dict.get (raw self) "SUCCESS"); discriminate.
  - intros r. split.
    + intros [b Hb]. rewrite success_unfold in Hb.
      destruct (Dict.get (raw r) "ACK") as [[|v [|w l]]|]; try discriminate. eauto.
    + intros [v Hv]. rewrite success_unfold, Hv. eauto.
  - intros r. rewrite getattr_success_unfold. split.
    + intros [b Hb].
      destruct (Dict.get (raw r) "ACK") as [[|v [|w l]]|]; eauto;
        destruct (__getattr__ r "success"); discriminate.
    + intros [v ->]. eauto.
Qed.

(** A response that repeats [ACK]. *)
Lemma C9_success_on_many_valued_ack_witness :
  Dict.get (raw (decoded "ACK=Success&ACK=Failure" nvp_config)) "ACK"
    = Some ["Success"; "Failure"]
  /\ length ["Success"; "Failure"] <> 1
  /\ success (decoded "ACK=Success&ACK=Failure" nvp_config)
     = Raise (AttributeError "'list' object has no attribute 'upper'")
  /\ getattr (decoded "ACK=Success&ACK=Failure" nvp_config) "success"
     = Raise (AttributeError "success").
Proof.
  split; [reflexivity|]. split; [discriminate|].
  pose proof (C9_success_on_many_valued_ack
                (decoded "ACK=Success&ACK=Failure" nvp_config) ["Success"; "Failure"]
                eq_refl ltac:(discriminate)) as (_ & Hs & _ & Ha & _).
  split; [exact Hs | exact Ha].
Defined.

(* ================================================================= *)
(** ** Attribute-style access and member names *)

Lemma is_member_In (name : string) : is_member name = true <-> In name all_members.
Proof.
  assert (E : is_member name = existsb (String.eqb name) all_members).
  { unfold is_member, all_members, mem. cbn [existsb].
    now rewrite !existsb_app, !orb_assoc. }
  rewrite E, existsb_exists. split.
  - intros (x & Hin & Heq). apply String.eqb_eq in Heq. now subst.
  - intros Hin. exists name. split; [assumption | apply String.eqb_refl].
Qed.

(** Every member name has a lower-case letter, so no upper-cased name is a
    member: the lookup by attribute of an upper-case name always reaches
    [__getattr__]. *)
Lemma upper_not_member (name : string) : is_member (Str.upper name) = false.
Proof.
  destruct (is_member (Str.upper name)) eqn:E; [|reflexivity].
  apply is_member_In in E.
  assert (Hall : forallb (fun m => negb (String.eqb (Str.upper m) m)) all_members = true)
    by reflexivity.
  rewrite forallb_forall in Hall. specialize (Hall _ E).
  rewrite upper_idem, String.eqb_refl in Hall. discriminate.
Qed.

(** When the getter of [success] raises AttributeError, attribute access to
    [success] is answered by [__getattr__('success')]. *)
Lemma getattr_success_fallback (self : PayPalResponse) (arg : string) :
  success self = Raise (AttributeError arg) ->
  getattr self "success" = fmap Field (__getattr__ self "success").
Proof.
  intros H. unfold getattr. cbn [String.eqb Ascii.eqb Bool.eqb]. now rewrite H.
Qed.

(** A response value that comes out of [__getattr__] is the one the
    dict-style lookup returns under the same key. *)
Lemma getattr_method_Field (self : PayPalResponse) (key : string) (v : value) :
  fmap Field (__getattr__ self key) = Ok (Field v) -> __getitem__ self key = Ok v.
Proof.
  rewrite getattr_method_unfold, getitem_unfold.
  destruct (Dict.get (raw self) (Str.upper key)); simpl; congruence.
Qed.

(** C10, as checked on the code: in the record constructed from [RAW=x] the
    attribute [raw] is the member (the decoded dictionary), and the response
    field is reached by dict-style lookup, and also by attribute-style
    access under the name [RAW]. In the record constructed from [SUCCESS=1]
    the attribute [success], the name of a member, returns the response
    value. *)
Lemma C10_field_reached_by_attribute_counterexample :
  (forall pformat,
     fmap fst (__init__ pformat "RAW=x" nvp_config) = Ok (decoded "RAW=x" nvp_config))
  /\ getattr (decoded "RAW=x" nvp_config) "raw" = Ok (RawDict [("RAW", ["x"])])
  /\ __getitem__ (decoded "RAW=x" nvp_config) "raw" = Ok (Scalar "x")
  /\ getattr (decoded "RAW=x" nvp_config) "RAW" = Ok (Field (Scalar "x"))
  /\ (forall pformat,
        fmap fst (__init__ pformat "SUCCESS=1" nvp_config)
        = Ok (decoded "SUCCESS=1" nvp_config))
  /\ is_member "success" = true
  /\ getattr (decoded "SUCCESS=1" nvp_config) "success" = Ok (Field (Scalar "1")).
Proof.
  repeat split; reflexivity.
Qed.

(** C10 (amended): attribute-style access calls [__getattr__], and so reads
    the decoded mapping, for every name that is not a member of the record,
    names being compared as they are spelt, and for the member [success]
    exactly when its getter returns no boolean, that is when [ACK] is not
    stored with exactly one value; a response value is obtained in no other
    case, and it is always the value of the dict-style lookup under the
    same name. Under the exact name of a member other than [success] the
    access returns the member, never a response value; under [success] it
    returns the boolean of the getter when [ACK] is stored with exactly one
    value, and otherwise what [__getattr__('success')] gives. A response
    field whose name collides with a member stays reachable by dict-style
    lookup under any casing, and by attribute-style access under every
    casing that is not itself a member name, the upper-case one among
    them. *)
Theorem C10_members_shadow_fields (self : PayPalResponse) (name : string) :
  (is_member name = false -> getattr self name = fmap Field (__getattr__ self name))
  /\ (is_member name = true -> name <> "success" ->
        exists m, getattr self name = Ok m /\ forall v, m <> Field v)
  /\ getattr self "success"
     = match Dict.get (raw self) "ACK" with
       | Some [v] =>
           Ok (Boolean (String.eqb (Str.upper v) (ACK_SUCCESS (config self))
                        || String.eqb (Str.upper v)
                             (ACK_SUCCESS_WITH_WARNING (config self))))
       | _ => fmap Field (__getattr__ self "success")
       end
  /\ (forall v, getattr self name = Ok (Field v) ->
        (is_member name = false
         \/ (name = "success"
             /\ forall x, Dict.get (raw self) "ACK" <> Some [x]))
        /\ __getitem__ self name = Ok v)
  /\ (forall vs, Dict.get (raw self) (Str.upper name) = Some vs ->
        __getitem__ self name = Ok (collapse vs)
        /\ getattr self (Str.upper name) = Ok (Field (collapse vs))
        /\ forall alias, Str.upper alias = Str.upper name -> is_member alias = false ->
             getattr self alias = Ok (Field (collapse vs))).
Proof.
  assert (Hmem : is_member name = true -> name <> "success" ->
                 exists m, getattr self name = Ok m /\ forall v, m <> Field v).
  { intros Hm Hns. unfold getattr. unfold is_member, mem at 1, instance_attrs in Hm.
    cbn [existsb] in Hm.
    destruct (String.eqb_spec name "success") as [|_]; [contradiction|].
    destruct (String.eqb name "raw"); [eexists; split; [reflexivity | discriminate]|].
    destruct (String.eqb name "config"); [eexists; split; [reflexivity | discriminate]|].
    cbn [orb] in Hm. rewrite Hm.
    eexists; split; [reflexivity | discriminate]. }
  split; [apply getattr_non_member|]. split; [exact Hmem|].
  split; [apply getattr_success_unfold|]. split.
  - intros v Hv. destruct (is_member name) eqn:Em.
    + destruct (string_dec name "success") as [->|Hns].
      * rewrite getattr_success_unfold in Hv.
        destruct (Dict.get (raw self) "ACK") as [[|x [|y l]]|] eqn:Eack;
          try discriminate Hv.
        all: split; [right; split; [reflexivity | intros x'; discriminate]
                    | now apply getattr_method_Field].
      * destruct (Hmem eq_refl Hns) as (m & Hm & Hnf).
        rewrite Hm in Hv. injection Hv as ->. now contradiction (Hnf v).
    + split; [now left|].
      rewrite (getattr_non_member _ _ Em) in Hv. now apply getattr_method_Field.
  - intros vs Hget. split; [|split].
    + now rewrite getitem_unfold, Hget.
    + rewrite (getattr_non_member _ _ (upper_not_member name)).
      now rewrite getattr_method_unfold, upper_idem, Hget.
    + intros alias Hup Hm. rewrite (getattr_non_member _ _ Hm).
      now rewrite getattr_method_unfold, Hup, Hget.
Qed.

(** A response field named like the member [raw]. *)
Lemma C10_members_shadow_fields_witness :
  is_member "raw" = true
  /\ (exists m, getattr (decoded "RAW=x" nvp_config) "raw" = Ok m /\ forall v, m <> Field v)
  /\ Dict.get (raw (decoded "RAW=x" nvp_config)) (Str.upper "raw") = Some ["x"]
  /\ getattr (decoded "RAW=x" nvp_config) "RAW" = Ok (Field (Scalar "x")).
Proof.
  split; [reflexivity|]. split.
  - apply (C10_members_shadow_fields (decoded "RAW=x" nvp_config) "raw").
    + reflexivity.
    + discriminate.
  - split; [reflexivity|].
    exact (proj1 (proj2 (proj2 (proj2 (proj2 (proj2
             (C10_members_shadow_fields (decoded "RAW=x" nvp_config) "raw"))))
             ["x"] eq_refl))).
Defined.

(* ================================================================= *)
(** ** Further properties: construction and rendering *)

(** X1: [__init__] returns, and then returns the record holding the decoded
    mapping, exactly when every decoded field name has its upper-case form
    among the decoded field names. *)
Theorem X1_constructor_returns_iff
    (pformat : Dict.t value -> string) (q : string) (cfg : PayPalConfig) :
  (exists log, __init__ pformat q cfg = Ok (decoded q cfg, log)) <->
  (forall k, In k (map fst (Urllib.parse_qsl q)) ->
             In (Str.upper k) (map fst (Urllib.parse_qsl q))).
Proof.
  rewrite <- (init_succeeds_iff pformat q cfg). split.
  - intros [log H]. eauto.
  - intros (self & log & H). exists log.
    destruct (init_Ok_inv _ _ _ _ _ H) as [-> _]. exact H.
Qed.

Lemma items_find (self : PayPalResponse) (ks : list string) :
  match find (fun k => negb (stored (raw self) (Str.upper k))) ks with
  | Some k =>
      mapM (fun key => v <- __getitem__ self key ;; Ok (key, v)) ks
      = Raise (KeyError (Str.upper k))
  | None =>
      exists ps, mapM (fun key => v <- __getitem__ self key ;; Ok (key, v)) ks = Ok ps
  end.
Proof.
  induction ks as [|k ks IH]; cbn [find mapM].
  - eauto.
  - rewrite getitem_unfold. unfold stored.
    destruct (Dict.get (raw self) (Str.upper k)) as [vs|]; cbn [negb bind].
    + destruct (find _ ks) as [k'|].
      * now rewrite IH.
      * destruct IH as [ps ->]. simpl. eauto.
    + reflexivity.
Qed.

(** X2: on any record the three renderings [__str__], [formatted] and
    [__repr__] fail together. If some key of [raw] has no upper-case
    counterpart among the keys, each raises the KeyError of the upper-case
    form of the first such key in iteration order; otherwise each returns,
    and all three render one and the same collapsed dictionary. *)
Theorem X2_renderings_fail_together
    (pformat repr : Dict.t value -> string) (self : PayPalResponse) :
  match first_missing (raw self) with
  | Some k =>
      __str__ pformat self = Raise (KeyError (Str.upper k))
      /\ formatted pformat self = Raise (KeyError (Str.upper k))
      /\ __repr__ repr self = Raise (KeyError (Str.upper k))
  | None =>
      exists d,
        items_dict self = Ok d
        /\ __str__ pformat self = Ok (pformat d)
        /\ formatted pformat self = Ok (pformat d)
        /\ __repr__ repr self
           = Ok ("<paypal.response.PayPalResponse " ++ repr d ++ ">")%string
  end.
Proof.
  pose proof (items_find self (__iter__ self)) as H.
  unfold first_missing. fold (__iter__ self).
  unfold __str__, formatted, __repr__, items_dict, fmap, items.
  destruct (find _ (__iter__ self)) as [k|].
  - rewrite H. repeat split; reflexivity.
  - destruct H as [ps ->]. exists (Dict.of_pairs ps). repeat split; reflexivity.
Qed.

(** X12: a record that [__init__] returned renders without an exception:
    [__str__], [formatted] and [__repr__] all return, they render the same
    collapsed dictionary, and the message logged at construction is the
    fixed first line followed by that rendering. *)
Theorem X12_constructed_record_always_renders
    (pformat repr : Dict.t value -> string) (q : string) (cfg : PayPalConfig)
    (self : PayPalResponse) (log : string) :
  __init__ pformat q cfg = Ok (self, log) ->
  exists d,
    items_dict self = Ok d
    /\ __str__ pformat self = Ok (pformat d)
    /\ formatted pformat self = Ok (pformat d)
    /\ __repr__ repr self
       = Ok ("<paypal.response.PayPalResponse " ++ repr d ++ ">")%string
    /\ log = (log_prefix ++ pformat d)%string.
Proof.
  intros H. apply init_Ok_inv in H. destruct H as (_ & s & Hs & ->).
  unfold __str__, formatted, __repr__, fmap in *.
  destruct (items_dict self) as [d|e]; simpl in Hs; [|discriminate].
  injection Hs as <-. exists d. repeat split; reflexivity.
Qed.

(** A record with two fields; the renderings are told apart by the
    functions passed for [pformat] and [repr]. *)
Lemma X12_constructed_record_always_renders_witness :
  __init__ (fun _ => "{}") "ACK=Success&AMT=1" nvp_config
    = Ok (decoded "ACK=Success&AMT=1" nvp_config, (log_prefix ++ "{}")%string)
  /\ exists d,
       items_dict (decoded "ACK=Success&AMT=1" nvp_config) = Ok d
       /\ __repr__ (fun _ => "{..}") (decoded "ACK=Success&AMT=1" nvp_config)
          = Ok "<paypal.response.PayPalResponse {..}>".
Proof.
  split; [reflexivity|].
  destruct (X12_constructed_record_always_renders (fun _ => "{}") (fun _ => "{..}")
              "ACK=Success&AMT=1" nvp_config _ _ eq_refl) as (d & Hd & _ & _ & Hr & _).
  exists d. split; assumption.
Defined.

Section DictOrder.

Context {V : Type}.

Lemma set_fresh (d : Dict.t V) (k : string) (v : V) :
  Dict.get d k = None -> Dict.set d k v = d ++ [(k, v)].
Proof.
  induction d as [|[k' v'] d IH]; simpl.
  - reflexivity.
  - destruct (String.eqb k' k); [discriminate|]. intros H. now rewrite IH.
Qed.

Lemma get_NoDup_entry (d : Dict.t V) (k : string) (v : V) :
  NoDup (Dict.keys d) -> In (k, v) d -> Dict.get d k = Some v.
Proof.
  induction d as [|[k' v'] d IH]; simpl; [contradiction|].
  intros Hnd [Heq|Hin].
  - injection Heq as -> ->. now rewrite String.eqb_refl.
  - inversion Hnd as [|? ? Hnotin Hnd']; subst.
    destruct (String.eqb_spec k' k) as [->|_]; [|auto].
    exfalso. apply Hnotin. change k with (fst (k, v)). now apply in_map.
Qed.

Lemma fold_set_fresh (ps : list (string * V)) :
  forall d : Dict.t V,
    NoDup (map fst ps) ->
    (forall k, In k (map fst ps) -> Dict.get d k = None) ->
    fold_left (fun d kv => Dict.set d (fst kv) (snd kv)) ps d = d ++ ps.
Proof.
  induction ps as [|[k v] ps IH]; intros d Hnd Hfresh; cbn [fold_left fst snd].
  - now rewrite app_nil_r.
  - cbn [map fst] in Hnd, Hfresh. inversion Hnd as [|? ? Hnotin Hnd']; subst.
    rewrite set_fresh by (apply Hfresh; now left).
    rewrite IH; [now rewrite <- app_assoc | assumption |].
    intros k' Hk'. rewrite get_app_last, Hfresh by (now right).
    destruct (String.eqb_spec k k') as [->|_]; [contradiction | reflexivity].
Qed.

Lemma of_pairs_NoDup (ps : list (string * V)) :
  NoDup (map fst ps) -> Dict.of_pairs ps = ps.
Proof.
  intros Hnd. unfold Dict.of_pairs. now rewrite fold_set_fresh.
Qed.

End DictOrder.

(** The pairs of [items] when every key of [raw] is upper-case. *)
Lemma items_upper_case (self : PayPalResponse) :
  NoDup (Dict.keys (raw self)) ->
  (forall k, In k (Dict.keys (raw self)) -> Str.upper k = k) ->
  items self = Ok (map (fun kv => (fst kv, collapse (snd kv))) (raw self)).
Proof.
  intros Hnd Hup. unfold items, __iter__, Dict.keys.
  assert (Hsub : forall e, In e (raw self) -> In e (raw self)) by auto.
  revert Hsub. generalize (raw self) at 1 3 4 as l.
  induction l as [|[k vs] l IH]; intros Hsub; cbn [map mapM fst snd].
  - reflexivity.
  - rewrite getitem_unfold, Hup.
    + rewrite (get_NoDup_entry _ k vs Hnd) by (apply Hsub; now left).
      cbn [bind]. rewrite IH by (intros e He; apply Hsub; now right). reflexivity.
    + change k with (fst (k, vs)). apply in_map, Hsub. now left.
Qed.

(** X3: when every decoded field name is upper-case (the form in which the
    NVP interface sends names), [__init__] returns, and the dictionary that is
    rendered and logged is [raw] itself with each sequence put through the
    collapsing rule, entry by entry in the same order. *)
Theorem X3_upper_case_response_constructs
    (pformat : Dict.t value -> string) (q : string) (cfg : PayPalConfig) :
  (forall k, In k (map fst (Urllib.parse_qsl q)) -> Str.upper k = k) ->
  items_dict (decoded q cfg)
    = Ok (map (fun kv => (fst kv, collapse (snd kv))) (Urllib.parse_qs q))
  /\ __init__ pformat q cfg
     = Ok (decoded q cfg,
           (log_prefix
            ++ pformat (map (fun kv => (fst kv, collapse (snd kv))) (Urllib.parse_qs q)))%string).
Proof.
  intros Hup.
  assert (Hitems : items_dict (decoded q cfg)
            = Ok (map (fun kv => (fst kv, collapse (snd kv))) (Urllib.parse_qs q))).
  { unfold items_dict, fmap. rewrite items_upper_case; cbn [raw decoded].
    - cbn [bind]. rewrite of_pairs_NoDup; [reflexivity|].
      rewrite map_map. cbn [fst]. apply parse_qs_keys_NoDup.
    - apply parse_qs_keys_NoDup.
    - intros k Hk. apply Hup. now apply parse_qs_keys_In. }
  split; [exact Hitems|].
  unfold __init__, __str__, fmap. fold (decoded q cfg). now rewrite Hitems.
Qed.

(** The scenario response: three upper-case names, one of them repeated. *)
Lemma X3_upper_case_response_constructs_witness :
  (forall k, In k (map fst (Urllib.parse_qsl "ACK=Success&AMT=10.00&AMT=20.00")) ->
             Str.upper k = k)
  /\ items_dict (decoded "ACK=Success&AMT=10.00&AMT=20.00" nvp_config)
     = Ok [("ACK", Scalar "Success"); ("AMT", Sequence ["10.00"; "20.00"])].
Proof.
  assert (H : forall k, In k (map fst (Urllib.parse_qsl "ACK=Success&AMT=10.00&AMT=20.00")) ->
                        Str.upper k = k).
  { intros k Hk. simpl in Hk. destruct Hk as [<-|[<-|[<-|[]]]]; reflexivity. }
  split; [exact H|].
  exact (proj1 (X3_upper_case_response_constructs (fun _ => "{}")
                  "ACK=Success&AMT=10.00&AMT=20.00" nvp_config H)).
Defined.

(* ================================================================= *)
(** ** Further properties: iteration order and stored values *)

Lemma filter_filter {A : Type} (p r : A -> bool) (l : list A) :
  filter p (filter r l) = filter (fun x => p x && r x) l.
Proof.
  induction l as [|x l IH]; simpl; [reflexivity|].
  destruct (r x); simpl; destruct (p x); simpl; now rewrite IH.
Qed.

Lemma stored_set {V : Type} (d : Dict.t V) (k : string) (v : V) (k' : string) :
  stored (Dict.set d k v) k' = stored d k' || String.eqb k' k.
Proof.
  unfold stored. destruct (String.eqb_spec k' k) as [->|Hne].
  - rewrite get_set_same. now rewrite orb_true_r.
  - rewrite get_set_other by congruence. now rewrite orb_false_r.
Qed.

Lemma fold_add_keys_order (ps : list (string * string)) :
  forall d,
    Dict.keys (fold_left Urllib.add_pair ps d)
    = Dict.keys d ++ filter (fun k => negb (stored d k)) (uniq (map fst ps)).
Proof.
  induction ps as [|[n v] ps IH]; intros d; cbn [fold_left map fst uniq].
  - simpl. now rewrite app_nil_r.
  - assert (Hext : forall p, filter (fun k => negb (stored (Dict.set d n p) k))
                               (uniq (map fst ps))
                   = filter (fun k => negb (stored d k) && negb (String.eqb k n))
                            (uniq (map fst ps))).
    { intros p. apply filter_ext. intros k. rewrite stored_set. apply negb_orb. }
    rewrite IH, add_pair_set, keys_set, Hext. cbn [filter]. rewrite filter_filter.
    destruct (stored d n) eqn:Es; unfold stored in Es;
      destruct (Dict.get d n); try discriminate; cbn [negb].
    + reflexivity.
    + now rewrite <- app_assoc.
Qed.

Lemma filter_true {A : Type} (l : list A) : filter (fun _ => true) l = l.
Proof. induction l as [|x l IH]; simpl; [reflexivity | now rewrite IH]. Qed.

Lemma parse_qs_keys_order (q : string) :
  Dict.keys (Urllib.parse_qs q) = uniq (map fst (Urllib.parse_qsl q)).
Proof.
  unfold Urllib.parse_qs. rewrite fold_add_keys_order. simpl. apply filter_true.
Qed.

(** X4: iterating a constructed record yields every decoded field name
    exactly once, in the order in which the names first occur in the query
    string. *)
Theorem X4_iteration_order
    (pformat : Dict.t value -> string) (q : string) (cfg : PayPalConfig)
    (self : PayPalResponse) (log : string) :
  __init__ pformat q cfg = Ok (self, log) ->
  __iter__ self = uniq (map fst (Urllib.parse_qsl q))
  /\ NoDup (__iter__ self)
  /\ __len__ self = length (__iter__ self).
Proof.
  intros H. apply init_Ok_inv in H. destruct H as [-> _].
  unfold __iter__, __len__, Dict.len. cbn [raw decoded]. repeat split.
  - apply parse_qs_keys_order.
  - apply parse_qs_keys_NoDup.
  - unfold Dict.keys. now rewrite length_map.
Qed.

(** A name that comes back after another one keeps its first place. *)
Lemma X4_iteration_order_witness :
  __init__ (fun _ => "{}") "B=1&A=2&B=3" nvp_config
    = Ok (decoded "B=1&A=2&B=3" nvp_config, (log_prefix ++ "{}")%string)
  /\ __iter__ (decoded "B=1&A=2&B=3" nvp_config) = ["B"; "A"].
Proof.
  split; [reflexivity|].
  exact (proj1 (X4_iteration_order (fun _ => "{}") "B=1&A=2&B=3" nvp_config _ _ eq_refl)).
Defined.

Lemma unquote_nonempty (s : string) : s <> EmptyString -> Urllib.unquote s <> EmptyString.
Proof.
  destruct s as [|c s]; [congruence|]. intros _. cbn [Urllib.unquote].
  destruct (Ascii.eqb c "%"%char); [|discriminate].
  destruct s as [|h1 [|h2 s]]; try discriminate.
  destruct (Urllib.hex_digit h1); [|discriminate].
  destruct (Urllib.hex_digit h2); discriminate.
Qed.

Lemma replace_nonempty (a b : ascii) (s : string) :
  s <> EmptyString -> Str.replace a b s <> EmptyString.
Proof. destruct s; [congruence | discriminate]. Qed.

Lemma parse_pair_value_nonempty (p n v : string) :
  In (n, v) (Urllib.parse_pair p) -> v <> EmptyString.
Proof.
  unfold Urllib.parse_pair. destruct p as [|c p]; [contradiction|].
  destruct (Str.split1 "="%char (String c p)) as [|n0 [|v0 [|x l]]]; try contradiction.
  destruct v0 as [|c0 v0]; [contradiction|].
  intros [H|[]].
  assert (Hv : v = Urllib.unquote (Str.replace "+"%char " "%char (String c0 v0)))
    by congruence.
  rewrite Hv. apply unquote_nonempty, replace_nonempty. discriminate.
Qed.

Lemma parse_qsl_value_nonempty (q n v : string) :
  In (n, v) (Urllib.parse_qsl q) -> v <> EmptyString.
Proof.
  unfold Urllib.parse_qsl. intros H. apply in_flat_map in H.
  destruct H as (p & _ & Hp). now apply parse_pair_value_nonempty in Hp.
Qed.

Lemma values_of_In (k v : string) (ps : list (string * string)) :
  In v (values_of k ps) <-> In (k, v) ps.
Proof.
  unfold values_of. rewrite in_map_iff. split.
  - intros ([n v'] & Hv & Hin). apply filter_In in Hin. destruct Hin as [Hin Hk].
    simpl in Hv, Hk. apply String.eqb_eq in Hk. now subst.
  - intros Hin. exists (k, v). split; [reflexivity|].
    apply filter_In. split; [assumption | apply String.eqb_refl].
Qed.

(** X5: a lookup on a constructed record never returns an empty string or a
    sequence of fewer than two values. It returns either the one value
    decoded under the upper-cased key, and that value is not empty, or the
    list of the two or more values decoded under it, in decoding order, none
    of them empty. *)
Theorem X5_lookup_returns_no_empty_value
    (pformat : Dict.t value -> string) (q : string) (cfg : PayPalConfig)
    (self : PayPalResponse) (log : string) (key : string) (v : value) :
  __init__ pformat q cfg = Ok (self, log) ->
  __getitem__ self key = Ok v ->
  (exists s, v = Scalar s /\ s <> EmptyString
             /\ values_of (Str.upper key) (Urllib.parse_qsl q) = [s])
  \/ (exists l, v = Sequence l /\ 2 <= length l
                /\ Forall (fun s => s <> EmptyString) l
                /\ l = values_of (Str.upper key) (Urllib.parse_qsl q)).
Proof.
  intros H Hget. apply init_Ok_inv in H. destruct H as [-> _].
  rewrite getitem_unfold in Hget. cbn [raw decoded] in Hget.
  rewrite parse_qs_get in Hget.
  assert (Hne : Forall (fun s => s <> EmptyString)
                       (values_of (Str.upper key) (Urllib.parse_qsl q))).
  { apply Forall_forall. intros s Hs. apply values_of_In in Hs.
    now apply parse_qsl_value_nonempty in Hs. }
  destruct (values_of (Str.upper key) (Urllib.parse_qsl q)) as [|a [|b l]];
    [discriminate | |]; injection Hget as <-.
  - left. exists a. repeat split. now inversion Hne.
  - right. exists (a :: b :: l). repeat split; [simpl; lia | assumption].
Qed.

(** A repeated field and a single one. *)
Lemma X5_lookup_returns_no_empty_value_witness :
  __init__ (fun _ => "{}") "ACK=Success&AMT=1&AMT=2" nvp_config
    = Ok (decoded "ACK=Success&AMT=1&AMT=2" nvp_config, (log_prefix ++ "{}")%string)
  /\ __getitem__ (decoded "ACK=Success&AMT=1&AMT=2" nvp_config) "amt"
     = Ok (Sequence ["1"; "2"])
  /\ ((exists s, Sequence ["1"; "2"] = Scalar s /\ s <> EmptyString
                 /\ values_of (Str.upper "amt")
                      (Urllib.parse_qsl "ACK=Success&AMT=1&AMT=2") = [s])
      \/ (exists l, Sequence ["1"; "2"] = Sequence l /\ 2 <= length l
                    /\ Forall (fun s => s <> EmptyString) l
                    /\ l = values_of (Str.upper "amt")
                             (Urllib.parse_qsl "ACK=Success&AMT=1&AMT=2"))).
Proof.
  split; [reflexivity|]. split; [reflexivity|].
  exact (X5_lookup_returns_no_empty_value (fun _ => "{}") "ACK=Success&AMT=1&AMT=2"
           nvp_config _ _ "amt" _ eq_refl eq_refl).
Defined.

(** X6: no value decoded under an upper-case name is lost. In a constructed
    record, for every decoded pair whose name is the upper-case form of the
    requested key, the lookup returns that value itself or a sequence that
    contains it. *)
Theorem X6_no_upper_case_value_is_lost
    (pformat : Dict.t value -> string) (q : string) (cfg : PayPalConfig)
    (self : PayPalResponse) (log : string) (n v key : string) :
  __init__ pformat q cfg = Ok (self, log) ->
  In (n, v) (Urllib.parse_qsl q) ->
  Str.upper key = n ->
  __getitem__ self key = Ok (Scalar v)
  \/ exists l, __getitem__ self key = Ok (Sequence l) /\ In v l.
Proof.
  intros H Hin <-. apply init_Ok_inv in H. destruct H as [-> _].
  rewrite getitem_unfold. cbn [raw decoded]. rewrite parse_qs_get.
  apply values_of_In in Hin.
  destruct (values_of (Str.upper key) (Urllib.parse_qsl q)) as [|a [|b l]].
  - contradiction.
  - left. destruct Hin as [->|[]]. reflexivity.
  - right. exists (a :: b :: l). split; [reflexivity | assumption].
Qed.

(** The second of two amounts, asked for in lower case. *)
Lemma X6_no_upper_case_value_is_lost_witness :
  In ("AMT", "20.00") (Urllib.parse_qsl "AMT=10.00&AMT=20.00")
  /\ Str.upper "amt" = "AMT"
  /\ (__getitem__ (decoded "AMT=10.00&AMT=20.00" nvp_config) "amt" = Ok (Scalar "20.00")
      \/ exists l, __getitem__ (decoded "AMT=10.00&AMT=20.00" nvp_config) "amt"
                   = Ok (Sequence l) /\ In "20.00" l).
Proof.
  split; [simpl; auto|]. split; [reflexivity|].
  apply (X6_no_upper_case_value_is_lost (fun _ => "{}") "AMT=10.00&AMT=20.00" nvp_config
           _ (log_prefix ++ "{}")%string "AMT" "20.00" "amt").
  - reflexivity.
  - simpl; auto.
  - reflexivity.
Defined.

(* ================================================================= *)
(** ** Further properties: blank fields *)

Lemma split_cons (sep : ascii) (s : string) : exists p ps, Str.split sep s = p :: ps.
Proof.
  destruct s as [|c s]; simpl; [eauto|].
  destruct (Ascii.eqb c sep); [eauto|]. destruct (Str.split sep s); eauto.
Qed.

Lemma split_app (sep : ascii) (a b : string) :
  Str.split sep (a ++ String sep b) = Str.split sep a ++ Str.split sep b.
Proof.
  induction a as [|c a IH]; cbn [append Str.split].
  - now rewrite Ascii.eqb_refl.
  - destruct (Ascii.eqb c sep).
    + now rewrite IH.
    + rewrite IH. destruct (split_cons sep a) as (p & ps & ->). reflexivity.
Qed.

Lemma split_no_sep (sep : ascii) (s : string) :
  has_char sep s = false -> Str.split sep s = [s].
Proof.
  induction s as [|c s IH]; cbn [has_char Str.split]; [reflexivity|].
  intros H. apply orb_false_iff in H. destruct H as [-> H]. now rewrite IH.
Qed.

Lemma split1_no_sep (sep : ascii) (s : string) :
  has_char sep s = false -> Str.split1 sep s = [s].
Proof.
  induction s as [|c s IH]; cbn [has_char Str.split1]; [reflexivity|].
  intros H. apply orb_false_iff in H. destruct H as [-> H]. now rewrite IH.
Qed.

Lemma split1_app (sep : ascii) (a b : string) :
  has_char sep a = false -> Str.split1 sep (a ++ String sep b) = [a; b].
Proof.
  induction a as [|c a IH]; cbn [has_char append Str.split1].
  - now rewrite Ascii.eqb_refl.
  - intros H. apply orb_false_iff in H. destruct H as [-> H]. now rewrite IH.
Qed.

Lemma parse_qsl_pieces (q : string) :
  Urllib.parse_qsl q = flat_map Urllib.parse_pair (Str.split "&"%char q).
Proof. destruct q; reflexivity. Qed.

(** Decoding goes piece by piece: the pairs of [q1&q2] are the pairs of [q1]
    followed by those of [q2]. *)
Lemma parse_qsl_app (q1 q2 : string) :
  Urllib.parse_qsl (q1 ++ String "&"%char q2)
  = Urllib.parse_qsl q1 ++ Urllib.parse_qsl q2.
Proof. now rewrite !parse_qsl_pieces, split_app, flat_map_app. Qed.

Lemma parse_qsl_blank (n : string) :
  has_char "&"%char n = false -> has_char "="%char n = false ->
  Urllib.parse_qsl (n ++ "=") = [] /\ Urllib.parse_qsl n = [].
Proof.
  intros Hamp Heq. rewrite !parse_qsl_pieces. split.
  - rewrite split_no_sep.
    + cbn [flat_map]. unfold Urllib.parse_pair.
      change (n ++ "=")%string with (n ++ String "="%char EmptyString)%string.
      rewrite split1_app by assumption.
      destruct (n ++ String "="%char EmptyString)%string; reflexivity.
    + clear Heq. induction n as [|c n IH]; cbn [append has_char] in *; [reflexivity|].
      apply orb_false_iff in Hamp. destruct Hamp as [-> Hamp]. now apply IH.
  - rewrite split_no_sep by assumption. cbn [flat_map]. unfold Urllib.parse_pair.
    rewrite split1_no_sep by assumption. destruct n; reflexivity.
Qed.

(** X7: a field sent with a blank value, or as a bare name without [=], is
    dropped by the decoding [__init__] asks for. Put after or before the
    other fields of a query string it leaves the decoded record unchanged,
    so such a field is absent from the response. *)
Theorem X7_blank_field_is_dropped (q n : string) (cfg : PayPalConfig) :
  has_char "&"%char n = false -> has_char "="%char n = false ->
  decoded (q ++ "&" ++ n ++ "=") cfg = decoded q cfg
  /\ decoded (q ++ "&" ++ n) cfg = decoded q cfg
  /\ decoded (n ++ "=" ++ "&" ++ q) cfg = decoded q cfg
  /\ decoded (n ++ "&" ++ q) cfg = decoded q cfg.
Proof.
  intros Hamp Heq. destruct (parse_qsl_blank n Hamp Heq) as [Hb Hn].
  unfold decoded, Urllib.parse_qs.
  change (q ++ "&" ++ n ++ "=")%string with (q ++ String "&"%char (n ++ "="))%string.
  change (q ++ "&" ++ n)%string with (q ++ String "&"%char n)%string.
  replace (n ++ "=" ++ "&" ++ q)%string with ((n ++ "=") ++ String "&"%char q)%string.
  - change (n ++ "&" ++ q)%string with (n ++ String "&"%char q)%string.
    rewrite !parse_qsl_app, Hb, Hn, !app_nil_r. cbn [app]. repeat split.
  - clear. induction n as [|c n IH]; cbn [append]; [reflexivity | now rewrite IH].
Qed.

(** A note field left blank by the sender. *)
Lemma X7_blank_field_is_dropped_witness :
  has_char "&"%char "NOTE" = false /\ has_char "="%char "NOTE" = false
  /\ decoded "ACK=Success&NOTE=" nvp_config = decoded "ACK=Success" nvp_config.
Proof.
  split; [reflexivity|]. split; [reflexivity|].
  exact (proj1 (X7_blank_field_is_dropped "ACK=Success" "NOTE" nvp_config eq_refl eq_refl)).
Defined.

(* ================================================================= *)
(** ** Further properties: [success], [get] and [in] *)

(** X8: [success] compares the upper-cased [ACK] value with the tokens of the
    configuration as they are. It returns true only through a token that is
    itself in upper case, so with a configuration whose two tokens each have
    a lower-case letter it returns true for no response. *)
Theorem X8_success_needs_upper_case_token (self : PayPalResponse) :
  (success self = Ok true ->
     exists v, Dict.get (raw self) "ACK" = Some [v]
       /\ ((Str.upper v = ACK_SUCCESS (config self)
            /\ Str.upper (ACK_SUCCESS (config self)) = ACK_SUCCESS (config self))
           \/ (Str.upper v = ACK_SUCCESS_WITH_WARNING (config self)
               /\ Str.upper (ACK_SUCCESS_WITH_WARNING (config self))
                  = ACK_SUCCESS_WITH_WARNING (config self))))
  /\ (Str.upper (ACK_SUCCESS (config self)) <> ACK_SUCCESS (config self) ->
      Str.upper (ACK_SUCCESS_WITH_WARNING (config self))
        <> ACK_SUCCESS_WITH_WARNING (config self) ->
      success self <> Ok true).
Proof.
  assert (H1 : success self = Ok true ->
     exists v, Dict.get (raw self) "ACK" = Some [v]
       /\ ((Str.upper v = ACK_SUCCESS (config self)
            /\ Str.upper (ACK_SUCCESS (config self)) = ACK_SUCCESS (config self))
           \/ (Str.upper v = ACK_SUCCESS_WITH_WARNING (config self)
               /\ Str.upper (ACK_SUCCESS_WITH_WARNING (config self))
                  = ACK_SUCCESS_WITH_WARNING (config self)))).
  { rewrite success_unfold.
    destruct (Dict.get (raw self) "ACK") as [[|v [|w l]]|]; try discriminate.
    intros H. injection H as H. exists v. split; [reflexivity|].
    apply orb_true_iff in H. destruct H as [H|H]; apply String.eqb_eq in H;
      [left | right]; (split; [assumption|]); rewrite <- H; apply upper_idem. }
  split; [exact H1|].
  intros Ha Hb Hs. destruct (H1 Hs) as (v & _ & [[_ H]|[_ H]]); contradiction.
Qed.

(** A configuration that spells its tokens as the interface prints them. *)
Lemma X8_success_needs_upper_case_token_witness :
  success (decoded "ACK=Success" nvp_config) = Ok true
  /\ success {| raw := [("ACK", ["Success"])];
                config := {| ACK_SUCCESS := "Success";
                             ACK_SUCCESS_WITH_WARNING := "SuccessWithWarning" |} |}
     <> Ok true.
Proof.
  split; [reflexivity|].
  apply (proj2 (X8_success_needs_upper_case_token
                  {| raw := [("ACK", ["Success"])];
                     config := {| ACK_SUCCESS := "Success";
                                  ACK_SUCCESS_WITH_WARNING := "SuccessWithWarning" |} |}));
    discriminate.
Defined.

(** X9: what the attribute [success] evaluates to. With [ACK] stored with
    exactly one value it is the boolean of the getter. In every other case
    the AttributeError of the getter is answered by [__getattr__('success')]:
    the value of a response field [SUCCESS] when there is one, and otherwise
    [AttributeError('success')]; the error never names [ack]. *)
Theorem X9_success_as_attribute (self : PayPalResponse) :
  getattr self "success" =
  match Dict.get (raw self) "ACK" with
  | Some [v] =>
      Ok (Boolean (String.eqb (Str.upper v) (ACK_SUCCESS (config self))
                   || String.eqb (Str.upper v) (ACK_SUCCESS_WITH_WARNING (config self))))
  | _ =>
      match Dict.get (raw self) "SUCCESS" with
      | Some vs => Ok (Field (collapse vs))
      | None => Raise (AttributeError "success")
      end
  end.
Proof.
  unfold getattr. cbn [String.eqb Ascii.eqb Bool.eqb].
  rewrite success_unfold, getattr_method_unfold.
  change (Str.upper "success") with "SUCCESS".
  destruct (Dict.get (raw self) "ACK") as [[|v [|w l]]|];
    cbn [no_upper]; destruct (Dict.get (raw self) "SUCCESS"); reflexivity.
Qed.

(** X10: the inherited [get] never raises. It returns the default exactly
    when [key in self] is false, that is when the upper-case form of the key
    is not stored, and the looked-up value otherwise; both [get] and [in]
    give the same answer for all casings of a key. *)
Theorem X10_get_and_contains
    {D : Type} (self : PayPalResponse) (key : string) (default : D) :
  (exists r, get self key default = Ok r)
  /\ __contains__ self key = Ok (stored (raw self) (Str.upper key))
  /\ (__contains__ self key = Ok false <-> get self key default = Ok (inr default))
  /\ (forall v, __getitem__ self key = Ok v <-> get self key default = Ok (inl v))
  /\ (forall key', Str.upper key' = Str.upper key ->
        get self key' default = get self key default
        /\ __contains__ self key' = __contains__ self key).
Proof.
  unfold get, __contains__, stored. rewrite getitem_unfold.
  destruct (Dict.get (raw self) (Str.upper key)) as [vs|] eqn:E; repeat split;
    eauto; try discriminate; try congruence.
  all: try (intros H; injection H as H; congruence).
  all: try (rewrite getitem_unfold, H, E; reflexivity).
Qed.

(** One stored field, one that is missing. *)
Lemma X10_get_and_contains_witness :
  get (decoded "ACK=Success" nvp_config) "ack" 0 = Ok (inl (Scalar "Success"))
  /\ get (decoded "ACK=Success" nvp_config) "token" 0 = Ok (inr 0).
Proof.
  split.
  - apply (proj1 (proj1 (proj2 (proj2 (proj2
             (X10_get_and_contains (decoded "ACK=Success" nvp_config) "ack" 0))))
             (Scalar "Success"))).
    reflexivity.
  - apply (proj1 (proj1 (proj2 (proj2
             (X10_get_and_contains (decoded "ACK=Success" nvp_config) "token" 0))))).
    reflexivity.
Defined.

(** X11: a constructed record keeps the contract of a mapping. Every key
    that iteration yields is in the record and can be looked up, so [get]
    never falls back to the default for it, and [items] has one pair for each
    key. *)
Theorem X11_iterated_keys_are_readable
    (pformat : Dict.t value -> string) (q : string) (cfg : PayPalConfig)
    (self : PayPalResponse) (log : string) :
  __init__ pformat q cfg = Ok (self, log) ->
  (forall k, In k (__iter__ self) ->
     __contains__ self k = Ok true
     /\ exists v, __getitem__ self k = Ok v
                  /\ forall (D : Type) (default : D), get self k default = Ok (inl v))
  /\ exists ps, items self = Ok ps
                /\ map fst ps = __iter__ self
                /\ length ps = __len__ self.
Proof.
  intros H. apply init_Ok_inv in H. destruct H as (_ & s & Hs & _).
  unfold __str__, items_dict, fmap in Hs.
  destruct (items self) as [ps|e] eqn:Eps; simpl in Hs; [|discriminate].
  destruct (items_Ok_inv self ps Eps) as [Hkeys Hvals]. split.
  - intros k Hk. rewrite <- Hkeys in Hk. apply in_map_iff in Hk.
    destruct Hk as ([k' v] & Hfst & Hin). simpl in Hfst. subst k'.
    apply Hvals in Hin. unfold __contains__, get. rewrite Hin.
    split; [reflexivity|]. exists v. split; [reflexivity|]. reflexivity.
  - exists ps. repeat split; [assumption|].
    unfold __len__, Dict.len. rewrite <- (length_map fst ps), Hkeys.
    unfold __iter__, Dict.keys. apply length_map.
Qed.

(** Two spellings of one name, both stored, both readable. *)
Lemma X11_iterated_keys_are_readable_witness :
  __init__ (fun _ => "{}") "a=1&A=2" nvp_config
    = Ok (decoded "a=1&A=2" nvp_config, (log_prefix ++ "{}")%string)
  /\ In "a" (__iter__ (decoded "a=1&A=2" nvp_config))
  /\ __contains__ (decoded "a=1&A=2" nvp_config) "a" = Ok true.
Proof.
  split; [reflexivity|]. split; [simpl; auto|].
  apply (proj1 (X11_iterated_keys_are_readable (fun _ => "{}") "a=1&A=2" nvp_config
                  _ _ eq_refl) "a").
  simpl; auto.
Defined.

(* ================================================================= *)
(** ** Further properties: the exception of the constructor; plain pairs *)

(** X13: the only exception [__init__] raises is KeyError. Its argument is
    the upper-case form of the first decoded field name, in order of first
    occurrence, whose upper-case form is not itself a decoded field name. *)
Theorem X13_constructor_raises_only_key_error
    (pformat : Dict.t value -> string) (q : string) (cfg : PayPalConfig) (e : exn) :
  __init__ pformat q cfg = Raise e ->
  exists k,
    first_missing (Urllib.parse_qs q) = Some k
    /\ e = KeyError (Str.upper k)
    /\ In k (map fst (Urllib.parse_qsl q))
    /\ ~ In (Str.upper k) (map fst (Urllib.parse_qsl q)).
Proof.
  intros H.
  pose proof (items_find (decoded q cfg) (__iter__ (decoded q cfg))) as Hf.
  unfold __init__, __str__, items_dict, fmap, items in H. fold (decoded q cfg) in H.
  unfold first_missing. unfold __iter__ in Hf, H. cbn [raw decoded] in Hf, H.
  destruct (find (fun k => negb (stored (Urllib.parse_qs q) (Str.upper k)))
                 (Dict.keys (Urllib.parse_qs q))) as [k|] eqn:Ek.
  - rewrite Hf in H. simpl in H. injection H as <-.
    exists k. split; [reflexivity|]. split; [reflexivity|].
    apply find_some in Ek. destruct Ek as [Hin Hst].
    split; [now apply parse_qs_keys_In|].
    rewrite <- parse_qs_keys_In. apply get_None_iff.
    unfold stored in Hst. now destruct (Dict.get (Urllib.parse_qs q) (Str.upper k)).
  - destruct Hf as [ps Hps]. rewrite Hps in H. discriminate.
Qed.

(** Two lower-case names: the first one decides the exception. *)
Lemma X13_constructor_raises_only_key_error_witness :
  __init__ (fun _ => "{}") "b=1&a=2" nvp_config = Raise (KeyError "B")
  /\ exists k, first_missing (Urllib.parse_qs "b=1&a=2") = Some k
               /\ KeyError "B" = KeyError (Str.upper k).
Proof.
  split; [reflexivity|].
  destruct (X13_constructor_raises_only_key_error (fun _ => "{}") "b=1&a=2" nvp_config
              (KeyError "B") eq_refl) as (k & Hk & He & _).
  exists k. split; assumption.
Defined.

Lemma plain_parts (s : string) :
  plain s = true ->
  has_char "&"%char s = false /\ has_char "="%char s = false
  /\ has_char "+"%char s = false /\ has_char "%"%char s = false.
Proof.
  unfold plain. rewrite negb_true_iff, !orb_false_iff. tauto.
Qed.

Lemma has_char_app (c : ascii) (a b : string) :
  has_char c (a ++ b) = has_char c a || has_char c b.
Proof.
  induction a as [|x a IH]; cbn [append has_char]; [reflexivity|].
  now rewrite IH, orb_assoc.
Qed.

Lemma replace_absent (a b : ascii) (s : string) :
  has_char a s = false -> Str.replace a b s = s.
Proof.
  induction s as [|c s IH]; cbn [has_char Str.replace]; [reflexivity|].
  intros H. apply orb_false_iff in H. destruct H as [-> H]. now rewrite IH.
Qed.

Lemma unquote_absent (s : string) :
  has_char "%"%char s = false -> Urllib.unquote s = s.
Proof.
  induction s as [|c s IH]; cbn [has_char Urllib.unquote]; [reflexivity|].
  intros H. apply orb_false_iff in H. destruct H as [-> H]. now rewrite IH.
Qed.

Lemma parse_qsl_plain_pair (n v : string) :
  plain n = true -> plain v = true -> v <> EmptyString ->
  Urllib.parse_qsl (n ++ String "="%char v) = [(n, v)].
Proof.
  intros Hn Hv Hne.
  destruct (plain_parts n Hn) as (Hn1 & Hn2 & Hn3 & Hn4).
  destruct (plain_parts v Hv) as (Hv1 & Hv2 & Hv3 & Hv4).
  rewrite parse_qsl_pieces, split_no_sep.
  - cbn [flat_map]. unfold Urllib.parse_pair.
    rewrite split1_app by assumption.
    rewrite !replace_absent, !unquote_absent by assumption.
    destruct (n ++ String "="%char v)%string eqn:E.
    + destruct n; discriminate.
    + destruct v; [congruence | reflexivity].
  - rewrite has_char_app. cbn [has_char]. now rewrite Hn1, Hv1.
Qed.

(** X14: a plain [name=value] pair (no [&], [=], [+] or [%] in either part,
    the value not empty) is decoded as it is written. Appended to a query
    string it is stored like one more pair of [parse_qs]: under a new
    upper-case name the lookup gives the value back as a bare string, under
    a name already stored the value becomes the last of the sequence, and
    the lookup of every other key is unchanged. *)
Theorem X14_plain_pair_is_read_back (q n v : string) (cfg : PayPalConfig) :
  plain n = true -> plain v = true -> v <> EmptyString ->
  raw (decoded (q ++ "&" ++ n ++ "=" ++ v) cfg)
    = Urllib.add_pair (raw (decoded q cfg)) (n, v)
  /\ (Str.upper n = n -> Dict.get (raw (decoded q cfg)) n = None ->
        __getitem__ (decoded (q ++ "&" ++ n ++ "=" ++ v) cfg) n = Ok (Scalar v))
  /\ (forall vs, Str.upper n = n -> Dict.get (raw (decoded q cfg)) n = Some vs ->
        vs <> [] ->
        __getitem__ (decoded (q ++ "&" ++ n ++ "=" ++ v) cfg) n = Ok (Sequence (vs ++ [v])))
  /\ (forall key, Str.upper key <> n ->
        __getitem__ (decoded (q ++ "&" ++ n ++ "=" ++ v) cfg) key
        = __getitem__ (decoded q cfg) key).
Proof.
  intros Hn Hv Hne.
  assert (Hraw : raw (decoded (q ++ "&" ++ n ++ "=" ++ v) cfg)
                 = Urllib.add_pair (raw (decoded q cfg)) (n, v)).
  { cbn [raw decoded]. unfold Urllib.parse_qs.
    change (q ++ "&" ++ n ++ "=" ++ v)%string
      with (q ++ String "&"%char (n ++ String "="%char v))%string.
    rewrite parse_qsl_app, parse_qsl_plain_pair by assumption.
    now rewrite fold_left_app. }
  split; [exact Hraw|]. rewrite !getitem_unfold, Hraw, add_pair_set. repeat split.
  - intros Hup Hnone. now rewrite Hup, get_set_same, Hnone.
  - intros vs Hup Hsome Hvs. rewrite Hup, get_set_same, Hsome.
    destruct vs as [|a [|b l]]; [congruence | reflexivity | reflexivity].
  - intros key Hkey. rewrite !getitem_unfold, Hraw, add_pair_set.
    now rewrite get_set_other by congruence.
Qed.

(** A token added to a response that has none. *)
Lemma X14_plain_pair_is_read_back_witness :
  plain "TOKEN" = true /\ plain "EC-123" = true /\ "EC-123" <> EmptyString
  /\ __getitem__ (decoded "ACK=Success&TOKEN=EC-123" nvp_config) "TOKEN"
     = Ok (Scalar "EC-123").
Proof.
  split; [reflexivity|]. split; [reflexivity|]. split; [discriminate|].
  apply (proj1 (proj2 (X14_plain_pair_is_read_back "ACK=Success" "TOKEN" "EC-123"
                         nvp_config eq_refl eq_refl ltac:(discriminate)))).
  - reflexivity.
  - reflexivity.
Defined.
